(** * ASMD: the dataset accessor of [audioscoredataset.py]

    A shallow embedding of the [Dataset] class (the catalogue filter, the
    retrieval accessors and the ground-truth normaliser of [get_score]) and
    of the module-level helpers [find_bach10_errors] and [truncate_score],
    followed by the properties checked against the natural-language
    specification.

    Conventions of the embedding:
    - Python exceptions are values of [exn]; a computation that may raise
      returns a [result];
    - methods that touch [self] run in the monad [Py], which threads the
      [Dataset] object and keeps the object as it was when an exception
      escaped;
    - JSON numbers (pitches, times, velocities) and audio samples are
      rationals, as every finite float is; the scores are only compared and
      copied, and the two float operations behind the mean of [get_mix] and
      [get_audio], the addition and the division by the number of arrays,
      each with the rounding of the array's dtype, are parameters;
    - the external collaborators ([io.open_audio] and the gzip+JSON decoder)
      are section variables. *)

From Stdlib Require Import ZArith QArith String Ascii List Sorted Permutation Lia.
From stdpp Require Import base tactics option list strings gmap.

Local Open Scope string_scope.
Local Open Scope list_scope.

(** ** Python values and exceptions *)

Inductive exn : Type :=
| ValueError
| IndexError
| KeyError
| TypeError
| UnboundLocalError
| IOError (msg : string).

Inductive result (A : Type) : Type :=
| Ok (a : A)
| Raise (e : exn).
Arguments Ok {A} a.
Arguments Raise {A} e.

Definition rbind {A B} (r : result A) (f : A → result B) : result B :=
  match r with
  | Ok a => f a
  | Raise e => Raise e
  end.

Notation "'let?' x := r 'in' k" := (rbind r (λ x, k))
  (at level 10, x pattern, r at level 100, k at level 200).

(** The nested lists of path strings found in the manifest. *)
#[local] Set Warnings "-register-all".
Inductive json : Type :=
| JStr (s : string)
| JArr (l : list json).

(** [len(x) > 0] / truthiness of a string. *)
Definition str_nonempty (s : string) : bool :=
  match s with
  | EmptyString => false
  | String _ _ => true
  end.

(** [needle in hay] on two strings: substring containment. *)
Fixpoint str_contains (needle hay : string) : bool :=
  String.prefix needle hay ||
  match hay with
  | EmptyString => false
  | String _ hay' => str_contains needle hay'
  end.

(** [x in l] on a list of strings. *)
Definition list_contains (x : string) (l : list string) : bool :=
  bool_decide (x ∈ l).

(** [l.index(x)]: the first position of [x], or [ValueError]. *)
Fixpoint list_index (x : string) (l : list string) : result Z :=
  match l with
  | [] => Raise ValueError
  | y :: l' =>
      if decide (y = x) then Ok 0%Z
      else let? i := list_index x l' in Ok (Z.succ i)
  end.

(** [l[i]] with Python's negative indices. *)
Definition py_getitem {A} (l : list A) (i : Z) : result A :=
  let n := Z.of_nat (length l) in
  let j := if (i <? 0)%Z then (i + n)%Z else i in
  if ((j <? 0) || (n <=? j))%Z then Raise IndexError
  else match l !! Z.to_nat j with
       | Some x => Ok x
       | None => Raise IndexError
       end.

(** [for x in j]: the elements of a list, the characters of a string. *)
Definition json_iter (j : json) : list json :=
  match j with
  | JArr l => l
  | JStr s => map (λ c, JStr (String c EmptyString)) (list_ascii_of_string s)
  end.

(** [os.path.join(a, b)] for two components (posix). *)
Definition ends_with_slash (a : string) : bool :=
  match last (list_ascii_of_string a) with
  | Some c => bool_decide (c = "/"%char)
  | None => false
  end.

Definition os_path_join (a b : string) : string :=
  if String.prefix "/" b then b
  else if negb (str_nonempty a) || ends_with_slash a then a +:+ b
  else a +:+ "/" +:+ b.

(** [joinpath(install_dir, fn)]: [fn] has to be a string. *)
Definition joinpath (a : string) (fn : json) : result string :=
  match fn with
  | JStr p => Ok (os_path_join a p)
  | JArr _ => Raise TypeError
  end.

(** ** The manifest *)

Record Song : Type := {
  song_composer : string;
  song_instruments : list string;
  song_recording_path : list string;
  (* [song['sources']['path']], when the key "sources" is present *)
  song_sources_path : option (list json);
  song_ground_truth : list json
}.

Record DatasetDescr : Type := {
  ds_name : string;
  ds_ensemble : bool;
  ds_instruments : list string;
  ds_ground_truth : gmap string Z;
  ds_songs : list Song
}.

Record Manifest : Type := {
  m_install_dir : string;
  m_datasets : list DatasetDescr
}.

(** One entry of [self.paths]: the list [[mix, source, gts]]. *)
Record Item : Type := {
  it_mix : list string;
  it_source : json;
  it_gts : json
}.

(** The attributes of a [Dataset] instance. *)
Record Dataset : Type := {
  data : Manifest;
  install_dir : string;
  decompress_path : string;
  paths : list Item
}.

(** [Dataset.__init__], after [json.load] has produced the manifest. *)
Definition init (m : Manifest) : Dataset :=
  {| data := m; install_dir := m_install_dir m;
     decompress_path := "./"; paths := [] |}.

(** [len(self)] *)
Definition dataset_len (self : Dataset) : nat := length (paths self).

(** ** The monad of methods *)

Definition Py (A : Type) : Type := Dataset → result A * Dataset.

Definition ret {A} (a : A) : Py A := λ self, (Ok a, self).
Definition lift {A} (r : result A) : Py A := λ self, (r, self).
Definition bind {A B} (m : Py A) (f : A → Py B) : Py B :=
  λ self,
    match m self with
    | (Ok a, self') => f a self'
    | (Raise e, self') => (Raise e, self')
    end.

Notation "'let!' x := m 'in' k" := (bind m (λ x, k))
  (at level 10, x pattern, m at level 100, k at level 200).

(** [self.paths.append(it)] *)
Definition paths_append (it : Item) : Py unit :=
  λ self,
    (Ok tt, {| data := data self; install_dir := install_dir self;
               decompress_path := decompress_path self;
               paths := paths self ++ [it] |}).

(** What a method hands back to its caller. *)
Inductive pyval : Type :=
| PyNone
| PyItems (l : list Item).

(** ** [Dataset.filter] *)

Record Criteria : Type := {
  instrument : string;
  ensemble : option bool;
  mixed : bool;
  sources : bool;
  all : bool;
  composer : string;
  datasets : list string;
  ground_truth : list (string * Z)
}.

(** The defaults of the keyword arguments. *)
Definition default_criteria : Criteria :=
  {| instrument := ""; ensemble := None; mixed := true; sources := false;
     all := false; composer := ""; datasets := []; ground_truth := [] |}.

(** The loop [for gt in ground_truth] with its [break]; a kind the dataset
    does not declare is a [KeyError]. *)
Fixpoint ground_truth_loop (support : gmap string Z) (reqs : list (string * Z))
    (FLAG : bool) : result bool :=
  match reqs with
  | [] => Ok FLAG
  | gt :: reqs' =>
      match support !! gt.1 with
      | None => Raise KeyError
      | Some level =>
          if bool_decide (level ≠ gt.2) then Ok false
          else ground_truth_loop support reqs' FLAG
      end
  end.

(** Lines 72-91: the dataset-level flag. *)
Definition dataset_flag (c : Criteria) (mydataset : DatasetDescr) : result bool :=
  let FLAG := true in
  let FLAG :=
    if (0 <? length (datasets c))%nat
    then list_contains (ds_name mydataset) (datasets c)
    else FLAG in
  let FLAG :=
    match ensemble c with
    | Some e => if negb (eqb e (ds_ensemble mydataset)) then false else FLAG
    | None => FLAG
    end in
  let FLAG :=
    if str_nonempty (instrument c)
    then if negb (list_contains (instrument c) (ds_instruments mydataset))
         then false else FLAG
    else FLAG in
  ground_truth_loop (ds_ground_truth mydataset) (ground_truth c) FLAG.

(** Lines 96-102: the song-level checks narrow the flag they receive. *)
Definition song_flag (c : Criteria) (song : Song) (FLAG : bool) : bool :=
  let FLAG :=
    if str_nonempty (instrument c)
    then if negb (list_contains (instrument c) (song_instruments song))
         then false else FLAG
    else FLAG in
  if str_nonempty (composer c)
  then if negb (str_contains (composer c) (song_composer song))
       then false else FLAG
  else FLAG.

(** Lines 105-117: the source and ground-truth paths of an admitted song. *)
Definition song_source_gts (c : Criteria) (song : Song) : result (json * json) :=
  let gts := JArr (song_ground_truth song) in
  let source := JArr [] in
  match song_sources_path song with
  | Some spath =>
      if sources c then
        if all c then Ok (JArr spath, gts)
        else
          let? idx := list_index (instrument c) (song_instruments song) in
          let? source := py_getitem spath idx in
          let? gts := py_getitem (song_ground_truth song) idx in
          Ok (source, gts)
      else Ok (source, gts)
  | None => Ok (source, gts)
  end.

(** The body of [for song in mydataset['songs']]; it returns the flag as the
    next iteration finds it. *)
Definition filter_song (c : Criteria) (song : Song) (FLAG : bool) : Py bool :=
  let FLAG := song_flag c song FLAG in
  if FLAG then
    let! (source, gts) := lift (song_source_gts c song) in
    let mix := if mixed c then song_recording_path song else [] in
    let! _ := paths_append {| it_mix := mix; it_source := source; it_gts := gts |} in
    ret FLAG
  else ret FLAG.

Fixpoint filter_songs (c : Criteria) (songs : list Song) (FLAG : bool) : Py bool :=
  match songs with
  | [] => ret FLAG
  | song :: songs' =>
      let! FLAG := filter_song c song FLAG in
      filter_songs c songs' FLAG
  end.

(** The body of [for mydataset in self.data['datasets']]. *)
Definition filter_dataset (c : Criteria) (mydataset : DatasetDescr) : Py unit :=
  let! FLAG := lift (dataset_flag c mydataset) in
  if FLAG then let! _ := filter_songs c (ds_songs mydataset) FLAG in ret tt
  else ret tt.

Fixpoint filter_datasets (c : Criteria) (dss : list DatasetDescr) : Py unit :=
  match dss with
  | [] => ret tt
  | mydataset :: dss' =>
      let! _ := filter_dataset c mydataset in filter_datasets c dss'
  end.

(** [Dataset.filter]: there is no [return] statement. *)
Definition filter (c : Criteria) : Py pyval :=
  λ self,
    (let! _ := filter_datasets c (m_datasets (data self)) in ret PyNone) self.

(** ** numpy on lists of rationals *)

Definition matrix : Type := list (list Q).

(** The placeholder of a value that is not available. *)
Definition sentinel : Q := (-255)%Z # 1.

(** [np.full_like(a, v)] *)
Definition full_like (a : list Q) (v : Q) : list Q := replicate (length a) v.

(** [[-255] * n]: empty when [n] is negative. *)
Definition sentinels (n : Z) : list Q := replicate (Z.to_nat n) sentinel.

(** [len(a)] as a Python integer. *)
Definition len {A} (a : list A) : Z := Z.of_nat (length a).

(** [np.array(rows)] for a list of one-dimensional arrays: the rows must
    have one length (numpy from 1.24 on refuses a ragged list; earlier
    versions build an array of objects that the indexing of [get_score]
    then refuses). *)
Definition rectangular (rows : list (list Q)) : bool :=
  match rows with
  | [] => true
  | r :: rows' => forallb (λ r', length r' =? length r)%nat rows'
  end.

Definition np_array2d (rows : list (list Q)) : result matrix :=
  if rectangular rows then Ok rows else Raise ValueError.

(** [np.concatenate(blocks, axis=1)]: the blocks are put side by side, so
    they must have the same number of rows. *)
Definition np_concatenate_axis1 (blocks : list matrix) : result matrix :=
  match blocks with
  | [] => Raise ValueError
  | b :: blocks' =>
      if forallb (λ b', length b' =? length b)%nat blocks'
      then Ok (foldl (zip_with app) b blocks')
      else Raise ValueError
  end.

(** [mat.T] *)
Definition transpose (mat : matrix) : matrix :=
  match mat with
  | [] => []
  | r :: _ => map (λ j, map (λ row, nth j row 0%Q) mat) (seq 0 (length r))
  end.

(** [mat[:, j]] *)
Definition column (j : nat) (mat : matrix) : list Q :=
  map (λ row, nth j row 0%Q) mat.

(** [a.argsort()]: the positions of [a] in ascending order of their values.
    numpy's default kind does not promise an order among equal values; the
    insertion used here keeps them in their original order, which is one of
    the orders numpy may return. The properties stated of [get_score] are
    the ascending order and the rearrangement, which every such order
    has. *)
Fixpoint insert_key (x : Q * nat) (l : list (Q * nat)) : list (Q * nat) :=
  match l with
  | [] => [x]
  | y :: l' =>
      if Qle_bool x.1 y.1 then x :: y :: l' else y :: insert_key x l'
  end.

Definition sort_keys (l : list (Q * nat)) : list (Q * nat) :=
  foldr insert_key [] l.

Definition argsort (a : list Q) : list nat :=
  map snd (sort_keys (zip a (seq 0 (length a)))).

(** [mat[perm]]: the rows of [mat] at the positions [perm]. *)
Fixpoint rows_at (mat : matrix) (perm : list nat) : result matrix :=
  match perm with
  | [] => Ok []
  | i :: perm' =>
      let? row := py_getitem mat (Z.of_nat i) in
      let? rows := rows_at mat perm' in
      Ok (row :: rows)
  end.

(** [np.mean(arrays, axis=0)]: the arrays must have one length; the result
    is their elementwise sum, accumulated array after array, divided by
    their number. [float_add] and [float_div] are the addition of two
    samples and the division of a sample by a count as the dtype of the
    arrays performs them, rounding included. *)
Definition np_mean_axis0 (float_add : Q → Q → Q) (float_div : Q → Z → Q)
    (arrays : list (list Q)) : result (list Q) :=
  match arrays with
  | [] => Raise ValueError
  | a :: arrays' =>
      if rectangular arrays
      then Ok (map (λ x, float_div x (len arrays))
                   (foldl (zip_with float_add) a arrays'))
      else Raise ValueError
  end.

(** ** Ground-truth records *)

Record Score : Type := {
  pitches : list Q;
  onsets : list Q;
  offsets : list Q;
  velocities : list Q
}.

Record GT : Type := {
  non_aligned : Score;
  broad_alignment : Score;
  precise_alignment : Score;
  gt_instrument : Q;
  beats_non_aligned : list Q
}.

Inductive ScoreType : Type := NonAligned | BroadAlignment | PreciseAlignment.

(** The key of a score type in the ground-truth dictionary. *)
Definition score_key (t : ScoreType) : string :=
  match t with
  | NonAligned => "non_aligned"
  | BroadAlignment => "broad_alignment"
  | PreciseAlignment => "precise_alignment"
  end.

Definition gt_get (gt : GT) (t : ScoreType) : Score :=
  match t with
  | NonAligned => non_aligned gt
  | BroadAlignment => broad_alignment gt
  | PreciseAlignment => precise_alignment gt
  end.

Definition gt_set (gt : GT) (t : ScoreType) (s : Score) : GT :=
  match t with
  | NonAligned =>
      {| non_aligned := s; broad_alignment := broad_alignment gt;
         precise_alignment := precise_alignment gt;
         gt_instrument := gt_instrument gt;
         beats_non_aligned := beats_non_aligned gt |}
  | BroadAlignment =>
      {| non_aligned := non_aligned gt; broad_alignment := s;
         precise_alignment := precise_alignment gt;
         gt_instrument := gt_instrument gt;
         beats_non_aligned := beats_non_aligned gt |}
  | PreciseAlignment =>
      {| non_aligned := non_aligned gt; broad_alignment := broad_alignment gt;
         precise_alignment := s;
         gt_instrument := gt_instrument gt;
         beats_non_aligned := beats_non_aligned gt |}
  end.

(** [gt[score_type]] for the string the caller passes: only the three score
    types hold a score. *)
Definition gt_getitem (gt : GT) (score_type : string) : result Score :=
  if decide (score_type = score_key NonAligned) then Ok (non_aligned gt)
  else if decide (score_type = score_key BroadAlignment) then Ok (broad_alignment gt)
  else if decide (score_type = score_key PreciseAlignment) then Ok (precise_alignment gt)
  else if decide (score_type = "instrument") then Raise TypeError
  else if decide (score_type = "beats_non_aligned") then Raise TypeError
  else Raise KeyError.

(** [find_bach10_errors]: detection only, the diagnostic is printed. *)
Definition find_bach10_errors (gt : GT) (score_type : string) : result bool :=
  let? s := gt_getitem gt score_type in
  Ok (negb (len (pitches s) =? len (onsets s))%Z).

(** [truncate_score], first loop: the length of the final lists. *)
Definition truncate_length_step (gt : GT) (length_to_truncate : nat)
    (score_type : ScoreType) : nat :=
  if (0 <? length (onsets (gt_get gt score_type)))%nat
  then length (onsets (gt_get gt score_type))
         `min` (length_to_truncate `min` length (pitches (gt_get gt score_type)))
  else length_to_truncate.

Definition score_types : list ScoreType :=
  [NonAligned; PreciseAlignment; BroadAlignment].

Definition length_to_truncate (gt : GT) : nat :=
  foldl (truncate_length_step gt) (length (pitches (non_aligned gt))) score_types.

(** [truncate_score], second loop: the four lists of one score type are cut
    to [n]. *)
Definition truncate_entry (n : nat) (gt : GT) (score_type : ScoreType) : GT :=
  let s := gt_get gt score_type in
  gt_set gt score_type
    {| pitches := take n (pitches s);
       velocities := take n (velocities s);
       onsets := take n (onsets s);
       offsets := take n (offsets s) |}.

(** [truncate_score]: the dictionary is updated in place; the updated
    dictionary is returned here. *)
Definition truncate_score (gt : GT) : GT :=
  foldl (truncate_entry (length_to_truncate gt)) gt score_types.

(** Lines 277-306 of [get_score]: the four columns of one ground truth after
    the missing values have been filled in. *)
Definition reconcile (s : Score) : Score :=
  let pitches0 := pitches s in
  let ons := onsets s in
  let ons := if (len ons =? 0)%Z then full_like pitches0 sentinel else ons in
  let missing := (len pitches0 - len ons)%Z in
  let pitches1 :=
    if (missing <? 0)%Z then pitches0 ++ sentinels (- missing) else pitches0 in
  let ons :=
    if (missing <? 0)%Z then ons
    else if (0 <? missing)%Z then ons ++ sentinels missing else ons in
  let offs := offsets s ++ sentinels missing in
  let offs := if (len offs =? 0)%Z then full_like ons sentinel else offs in
  let vel := velocities s ++ sentinels missing in
  let vel := if (len vel =? 0)%Z then full_like ons sentinel else vel in
  let missing := (len pitches1 - len vel)%Z in
  if (missing <? 0)%Z then
    {| pitches := pitches1 ++ sentinels (- missing);
       onsets := ons ++ sentinels (- missing);
       offsets := offs ++ sentinels (- missing);
       velocities := vel |}
  else if (0 <? missing)%Z then
    {| pitches := pitches1; onsets := ons; offsets := offs;
       velocities := vel ++ sentinels missing |}
  else
    {| pitches := pitches1; onsets := ons; offsets := offs;
       velocities := vel |}.

(** The body of [for i, gt in enumerate(gts)]: the block of one ground
    truth, six rows. *)
Definition score_block (i : nat) (gt : GT) (score_type : string)
    (truncate : bool) : result matrix :=
  let? gt :=
    (if truncate
     then let? _ := find_bach10_errors gt score_type in Ok (truncate_score gt)
     else Ok gt) in
  let? s := gt_getitem gt score_type in
  let r := reconcile s in
  let num := full_like (onsets r) (inject_Z (Z.of_nat i)) in
  let instr := full_like (onsets r) (gt_instrument gt) in
  np_array2d [pitches r; onsets r; offsets r; velocities r; instr; num].

Fixpoint score_blocks (i : nat) (gts : list GT) (score_type : string)
    (truncate : bool) (mat : list matrix) : result (list matrix) :=
  match gts with
  | [] => Ok mat
  | gt :: gts' =>
      let? block := score_block i gt score_type truncate in
      score_blocks (S i) gts' score_type truncate (mat ++ [block])
  end.

(** Lines 312-321: the blocks are merged, transposed and ordered by onset. *)
Definition merge_blocks (mat : list matrix) : result matrix :=
  let? mat :=
    (if (1 <? length mat)%nat then np_concatenate_axis1 mat
     else py_getitem mat 0%Z) in
  let mat := transpose mat in
  rows_at mat (argsort (column 1 mat)).

(** ** The retrieval methods *)

Section Retrieval.

(** The float addition and the float division by a count of numpy. *)
Variable float_add : Q → Q → Q.
Variable float_div : Q → Z → Q.

(** [io.open_audio]: the samples and the sampling rate of an audio file. *)
Variable open_audio : string → result (list Q * Z).

(** [json.load(gzip.open(fn))]: the decoded ground-truth file. *)
Variable load_gt : string → result GT.

(** The loops of [get_mix] and [get_source]: [sr] is bound by the first
    iteration. *)
Fixpoint open_all (dir : string) (fns : list json) (audios : list (list Q))
    (sr : option Z) : result (list (list Q) * option Z) :=
  match fns with
  | [] => Ok (audios, sr)
  | fn :: fns' =>
      let? p := joinpath dir fn in
      let? (audio, sr') := open_audio p in
      open_all dir fns' (audios ++ [audio]) (Some sr')
  end.

(** Reading a local variable that may not have been assigned. *)
Definition read_local {A} (v : option A) : result A :=
  match v with
  | Some x => Ok x
  | None => Raise UnboundLocalError
  end.

Definition get_mix (self : Dataset) (idx : Z) : result (list Q * Z) :=
  let? item := py_getitem (paths self) idx in
  let recordings_fn := map JStr (it_mix item) in
  let? (recordings, sr) := open_all (install_dir self) recordings_fn [] None in
  let? mix :=
    (if (1 <? length recordings)%nat
     then np_mean_axis0 float_add float_div recordings
     else py_getitem recordings 0%Z) in
  let? sr := read_local sr in
  Ok (mix, sr).

Fixpoint load_all (dir : string) (fns : list json) (gts : list GT)
    : result (list GT) :=
  match fns with
  | [] => Ok gts
  | gt_fn :: fns' =>
      let? input_fn := joinpath dir gt_fn in
      let? gt := load_gt input_fn in
      load_all dir fns' (gts ++ [gt])
  end.

Definition get_gts (self : Dataset) (idx : Z) : result (list GT) :=
  let? item := py_getitem (paths self) idx in
  load_all (install_dir self) (json_iter (it_gts item)) [].

Definition get_source (self : Dataset) (idx : Z)
    : result (list (list Q) * Z) :=
  let? item := py_getitem (paths self) idx in
  let sources_fn := json_iter (it_source item) in
  let? (sources, sr) := open_all (install_dir self) sources_fn [] None in
  let? sr := read_local sr in
  Ok (sources, sr).

Definition get_item (self : Dataset) (idx : Z)
    : result ((list Q * Z) * (list (list Q) * Z) * list GT) :=
  let? mix := get_mix self idx in
  let? sources := get_source self idx in
  let? gts := get_gts self idx in
  Ok (mix, sources, gts).

Definition get_score (self : Dataset) (idx : Z) (score_type : string)
    (truncate : bool) : result matrix :=
  let? gts := get_gts self idx in
  let? mat := score_blocks 0 gts score_type truncate [] in
  merge_blocks mat.

(** [Dataset.get_beats]: one row per ground truth. The records modelled
    here always carry the field [beats_non_aligned]. *)
Definition get_beats (self : Dataset) (idx : Z) : result matrix :=
  let? gts := get_gts self idx in
  np_array2d (map beats_non_aligned gts).

(** [Dataset.get_audio]: only the presence of [sources] is looked at. *)
Definition get_audio (self : Dataset) (idx : Z) (sources : option (list Z))
    : result (list Q * Z) :=
  match sources with
  | Some _ =>
      let? (audio, sr) := get_source self idx in
      let? audio := np_mean_axis0 float_add float_div audio in
      Ok (audio, sr)
  | None => get_mix self idx
  end.

End Retrieval.

(** ** Concrete manifests and records used below *)

(** [self] with its [paths] attribute replaced. *)
Definition with_paths (self : Dataset) (p : list Item) : Dataset :=
  {| data := data self; install_dir := install_dir self;
     decompress_path := decompress_path self; paths := p |}.

Definition q (z : Z) : Q := inject_Z z.

Definition song_bach : Song :=
  {| song_composer := "Bach"; song_instruments := ["violin"];
     song_recording_path := ["a.wav"]; song_sources_path := None;
     song_ground_truth := [JStr "a.gt.gz"] |}.

Definition song_mozart : Song :=
  {| song_composer := "Mozart"; song_instruments := ["violin"];
     song_recording_path := ["m.wav"]; song_sources_path := None;
     song_ground_truth := [JStr "m.gt.gz"] |}.

Definition dataset_D (songs : list Song) : DatasetDescr :=
  {| ds_name := "D"; ds_ensemble := false; ds_instruments := ["violin"];
     ds_ground_truth := {[ "beats" := 1%Z ]}; ds_songs := songs |}.

(** The manifest of the specification's scenario: one dataset, one song. *)
Definition manifest_one : Manifest :=
  {| m_install_dir := "/data"; m_datasets := [dataset_D [song_bach]] |}.

(** The same dataset with a song of another composer in front. *)
Definition manifest_two : Manifest :=
  {| m_install_dir := "/data";
     m_datasets := [dataset_D [song_mozart; song_bach]] |}.

Definition by_instrument (i : string) : Criteria :=
  {| instrument := i; ensemble := None; mixed := true; sources := false;
     all := false; composer := ""; datasets := []; ground_truth := [] |}.

Definition by_composer (s : string) : Criteria :=
  {| instrument := ""; ensemble := None; mixed := true; sources := false;
     all := false; composer := s; datasets := []; ground_truth := [] |}.

Definition item_bach : Item :=
  {| it_mix := ["a.wav"]; it_source := JArr [];
     it_gts := JArr [JStr "a.gt.gz"] |}.

(** An ensemble song with isolated sources, in a dataset that also lists an
    instrument the song does not have. *)
Definition song_duo : Song :=
  {| song_composer := "Bach"; song_instruments := ["violin"; "piano"];
     song_recording_path := ["duo.wav"];
     song_sources_path :=
       Some [JArr [JStr "duo_violin.wav"]; JArr [JStr "duo_piano.wav"]];
     song_ground_truth :=
       [JArr [JStr "duo_violin.gt.gz"]; JArr [JStr "duo_piano.gt.gz"]] |}.

Definition dataset_E : DatasetDescr :=
  {| ds_name := "E"; ds_ensemble := true;
     ds_instruments := ["violin"; "piano"; "cello"];
     ds_ground_truth := {[ "beats" := 1%Z ]};
     ds_songs := [song_duo] |}.

Definition manifest_duo : Manifest :=
  {| m_install_dir := "/data"; m_datasets := [dataset_E] |}.

(** Two datasets; the second one holds a song without isolated sources in
    front of the ensemble song. *)
Definition dataset_F : DatasetDescr :=
  {| ds_name := "F"; ds_ensemble := true;
     ds_instruments := ["violin"; "piano"; "cello"];
     ds_ground_truth := {[ "beats" := 1%Z ]};
     ds_songs := [song_mozart; song_duo] |}.

Definition manifest_mixed : Manifest :=
  {| m_install_dir := "/data";
     m_datasets := [dataset_D [song_bach]; dataset_F] |}.

Definition item_mozart : Item :=
  {| it_mix := ["m.wav"]; it_source := JArr [];
     it_gts := JArr [JStr "m.gt.gz"] |}.

Definition single_source (i : string) : Criteria :=
  {| instrument := i; ensemble := None; mixed := true; sources := true;
     all := false; composer := ""; datasets := []; ground_truth := [] |}.

(** The score of the specification's scenario: three pitches, two onsets. *)
Definition score_ragged : Score :=
  {| pitches := [q 60; q 62; q 64]; onsets := [q 0; 1 # 2];
     offsets := []; velocities := [] |}.

Definition score_empty : Score :=
  {| pitches := []; onsets := []; offsets := []; velocities := [] |}.

Definition gt_ragged : GT :=
  {| non_aligned := score_ragged; broad_alignment := score_empty;
     precise_alignment := score_empty; gt_instrument := q 40;
     beats_non_aligned := [] |}.

(** A record whose [non_aligned] entry has pitches and no onsets, next to
    two complete entries of three notes. *)
Definition score_three : Score :=
  {| pitches := [q 60; q 62; q 64]; onsets := [q 0; q 1; q 2];
     offsets := [q 1; q 2; q 3]; velocities := [q 90; q 90; q 90] |}.

Definition score_pitches_only : Score :=
  {| pitches := [q 60; q 62]; onsets := []; offsets := []; velocities := [] |}.

Definition gt_short_pitches : GT :=
  {| non_aligned := score_pitches_only; broad_alignment := score_three;
     precise_alignment := score_three; gt_instrument := q 40;
     beats_non_aligned := [] |}.

(** Two sources whose notes interleave in time. *)
Definition gt_violin : GT :=
  {| non_aligned :=
       {| pitches := [q 67; q 69]; onsets := [q 1; q 3];
          offsets := [q 2; q 4]; velocities := [q 80; q 80] |};
     broad_alignment := score_empty; precise_alignment := score_empty;
     gt_instrument := q 40; beats_non_aligned := [] |}.

Definition gt_piano : GT :=
  {| non_aligned :=
       {| pitches := [q 48; q 50]; onsets := [q 0; q 2];
          offsets := [q 1; q 3]; velocities := [q 70; q 70] |};
     broad_alignment := score_empty; precise_alignment := score_empty;
     gt_instrument := q 0; beats_non_aligned := [] |}.

Definition decode_duo (fn : string) : result GT :=
  if decide (fn = "/data/v.gt.gz") then Ok gt_violin
  else if decide (fn = "/data/p.gt.gz") then Ok gt_piano
  else Raise (IOError fn).

Definition dataset_duo_scores : Dataset :=
  with_paths (init manifest_duo)
    [{| it_mix := ["duo.wav"]; it_source := JArr [];
        it_gts := JArr [JStr "v.gt.gz"; JStr "p.gt.gz"] |}].

(** An audio reader that knows two files of three samples. *)
Definition read_two (fn : string) : result (list Q * Z) :=
  if decide (fn = "/data/left.wav") then Ok ([q 1; q 2; q 3], 44100%Z)
  else if decide (fn = "/data/right.wav") then Ok ([q 3; q 2; q 0], 22050%Z)
  else Raise (IOError fn).

Definition dataset_stereo : Dataset :=
  with_paths (init manifest_one)
    [{| it_mix := ["left.wav"]; it_source := JArr []; it_gts := JArr [] |};
     {| it_mix := ["left.wav"; "right.wav"]; it_source := JArr [];
        it_gts := JArr [] |}].

(** An audio reader that finds the same two samples in every file. *)
Definition read_any (fn : string) : result (list Q * Z) :=
  Ok ([q 1; q 2], 44100%Z).

(** The elementwise arithmetic mean of two waveforms as numpy computes it:
    the float sum of the two samples, float-divided by two. *)
Definition mean2 (float_add : Q → Q → Q) (float_div : Q → Z → Q)
    (w1 w2 : list Q) : list Q :=
  zip_with (λ a b, float_div (float_add a b) 2%Z) w1 w2.

(** The two operations without rounding: they agree with the float ones
    wherever the exact result is a float, as on the small dyadic samples
    used below. *)
Definition exact_div (x : Q) (n : Z) : Q := (x / inject_Z n)%Q.

(** A dataset whose only item is the one [filter] selects in the scenario,
    and a decoder that finds the ragged record behind every path. *)
Definition dataset_scenario : Dataset :=
  (filter (by_instrument "violin") (init manifest_one)).2.

Definition decode_ragged (fn : string) : result GT := Ok gt_ragged.

(** The lengths that a score type puts forward in [truncate_score]: those of
    its onsets and of its pitches, when it has onsets at all. *)
Definition observed_lengths (gt : GT) (t : ScoreType) : list nat :=
  if (0 <? length (onsets (gt_get gt t)))%nat
  then [length (onsets (gt_get gt t)); length (pitches (gt_get gt t))]
  else [].

Definition all_observed_lengths (gt : GT) : list nat :=
  concat (map (observed_lengths gt) [NonAligned; BroadAlignment; PreciseAlignment]).

(** The least element of a list of lengths, if there is any. *)
Definition list_min (l : list nat) : option nat :=
  match l with
  | [] => None
  | n :: l' => Some (foldr Nat.min n l')
  end.

(** The length that [truncate_score] cuts to, as the amended C5 words it:
    the least of the number of [non_aligned] pitches and of the observed
    lengths. *)
Definition amended_length (gt : GT) : nat :=
  foldr Nat.min (length (pitches (non_aligned gt))) (all_observed_lengths gt).

(** The four lists of a score cut to [n]. *)
Definition truncated (n : nat) (s : Score) : Score :=
  {| pitches := take n (pitches s); onsets := take n (onsets s);
     offsets := take n (offsets s); velocities := take n (velocities s) |}.

(** A computation that leaves the object alone except for items added at
    the end of [paths], where neither the outcome nor the items added depend
    on the items already there, and every item added satisfies [P]. *)
Definition appends {A} (P : Item → Prop) (m : Py A) (self : Dataset) : Prop :=
  ∃ r l, Forall P l ∧
         ∀ p, m (with_paths self p) = (r, with_paths self (p ++ l)).

(** The item that [filter] builds for a song. *)
Definition song_item (c : Criteria) (song : Song) (source gts : json) : Item :=
  {| it_mix := if mixed c then song_recording_path song else [];
     it_source := source; it_gts := gts |}.

(** Further criteria and songs for the properties of [filter]. *)
Definition unmixed : Criteria :=
  {| instrument := "violin"; ensemble := None; mixed := false;
     sources := false; all := false; composer := ""; datasets := [];
     ground_truth := [] |}.

Definition other_dataset_with_tempo : Criteria :=
  {| instrument := ""; ensemble := None; mixed := true; sources := false;
     all := false; composer := ""; datasets := ["other"];
     ground_truth := [("beats", 1%Z); ("tempo", 1%Z)] |}.

(** A song that lists two instruments and has the isolated source of the
    first one only. *)
Definition song_lopsided : Song :=
  {| song_composer := "Bach"; song_instruments := ["violin"; "piano"];
     song_recording_path := ["lop.wav"];
     song_sources_path := Some [JArr [JStr "lop_violin.wav"]];
     song_ground_truth :=
       [JArr [JStr "lop_violin.gt.gz"]; JArr [JStr "lop_piano.gt.gz"]] |}.

Definition all_sources : Criteria :=
  {| instrument := "violin"; ensemble := None; mixed := true;
     sources := true; all := true; composer := ""; datasets := [];
     ground_truth := [] |}.

(** ** Reading a list of files one after the other *)

(** [f] on every element in turn, up to the first exception. *)
Fixpoint result_map {A B} (f : A → result B) (l : list A) : result (list B) :=
  match l with
  | [] => Ok []
  | x :: l' =>
      let? y := f x in
      let? ys := result_map f l' in
      Ok (y :: ys)
  end.

(** The file [fn] of the install directory [dir], read by [open_file]. *)
Definition read_file {A} (open_file : string → result A) (dir : string)
    (fn : json) : result A :=
  let? p := joinpath dir fn in
  open_file p.

(** The sampling rate that the loops of [get_mix] and [get_source] leave in
    [sr]: that of the last file. *)
Definition last_rate (rs : list (list Q * Z)) : option Z :=
  match last rs with
  | Some (_, sr) => Some sr
  | None => None
  end.

(** A reader that finds audio in the first file and fails on the second. *)
Definition read_left_only (fn : string) : result (list Q * Z) :=
  if decide (fn = "/data/left.wav") then Ok ([q 1; q 2; q 3], 44100%Z)
  else Raise (IOError fn).

(** An item as [filter] builds it under [sources=True, all=True]. *)
Definition dataset_all_sources : Dataset :=
  (filter_song all_sources song_duo true (init manifest_duo)).2.

(** An item with two isolated sources. *)
Definition item_two_sources : Item :=
  {| it_mix := []; it_source := JArr [JStr "left.wav"; JStr "right.wav"];
     it_gts := JArr [] |}.

Definition dataset_two_sources : Dataset :=
  with_paths (init manifest_one) [item_two_sources].

(** ** What [filter] selects when no sources are asked for *)

(** The songs at the front of a dataset that pass the song-level checks. *)
Fixpoint leading_run (c : Criteria) (songs : list Song) : list Song :=
  match songs with
  | [] => []
  | song :: songs' =>
      if song_flag c song true then song :: leading_run c songs' else []
  end.

(** The item of a song when its sources are not looked at. *)
Definition plain_item (c : Criteria) (song : Song) : Item :=
  song_item c song (JArr []) (JArr (song_ground_truth song)).

(** The dataset-level flag, when it could be computed. *)
Definition admitted (c : Criteria) (mydataset : DatasetDescr) : bool :=
  match dataset_flag c mydataset with
  | Ok FLAG => FLAG
  | Raise _ => false
  end.

Definition flag_computed (c : Criteria) (mydataset : DatasetDescr) : bool :=
  match dataset_flag c mydataset with
  | Ok _ => true
  | Raise _ => false
  end.

Definition selected_items (c : Criteria) (m : Manifest) : list Item :=
  concat (map (λ mydataset,
                 if admitted c mydataset
                 then map (plain_item c) (leading_run c (ds_songs mydataset))
                 else [])
              (m_datasets m)).

(** ** The lengths that the reconciliation produces *)

(** The number of onsets once an empty list has been replaced. *)
Definition filled_onsets (s : Score) : nat :=
  if (length (onsets s) =? 0)%nat then length (pitches s)
  else length (onsets s).

(** The number of notes of a reconciled score. *)
Definition reconciled_length (s : Score) : nat :=
  (length (pitches s) `max` filled_onsets s)
    `max` (length (velocities s) + (length (pitches s) - filled_onsets s)).

(** Whether the offsets end up as long as the other columns. *)
Definition offsets_fit (s : Score) : bool :=
  if (filled_onsets s <? length (pitches s))%nat
  then (length (offsets s) =? filled_onsets s)%nat
  else (length (offsets s) =? 0)%nat
       || (length (offsets s) =? filled_onsets s)%nat.

(** [l] followed by sentinels up to the length [n]. *)
Definition pad (n : nat) (l : list Q) : list Q :=
  l ++ replicate (n - length l) sentinel.

(** The number of offsets of a reconciled score. *)
Definition offsets_length (s : Score) : nat :=
  let d := (length (pitches s) - filled_onsets s)%nat in
  let n := length (pitches s) `max` filled_onsets s in
  (if (length (offsets s) + d =? 0)%nat then n else length (offsets s) + d)
    + (length (velocities s) + d - n).

(** The six rows that [score_block] puts into a matrix. *)
Definition six_rows (i : nat) (gt : GT) (s : Score) : list (list Q) :=
  let r := reconcile s in
  [pitches r; onsets r; offsets r; velocities r;
   full_like (onsets r) (gt_instrument gt);
   full_like (onsets r) (inject_Z (Z.of_nat i))].

(** ** The rows of the note matrix *)

(** The rows [rows] in ascending order of their column 1. *)
Definition sort_rows (rows : matrix) : matrix :=
  map (λ i, nth i rows []) (argsort (column 1 rows)).

(** The notes of the ground truths [gts], source after source: one row of
    six entries per note. *)
Definition notes (t : ScoreType) (gts : list GT) : matrix :=
  concat (imap (λ i gt, transpose (six_rows i gt (gt_get gt t))) gts).

(** A matrix of [k] rows of [w] entries each. *)
Definition shaped (k w : nat) (mat : matrix) : Prop :=
  length mat = k ∧ Forall (λ r, length r = w) mat.

(** * Properties *)

(** ** The monad *)

Lemma bind_assoc {A B C} (m : Py A) (f : A → Py B) (g : B → Py C) self :
  bind (bind m f) g self = bind m (λ a, bind (f a) g) self.
Proof. unfold bind. by destruct (m self) as [[a|e] self']. Qed.

Lemma bind_ext {A B} (m : Py A) (f g : A → Py B) self :
  (∀ a self', f a self' = g a self') → bind m f self = bind m g self.
Proof. intros H. unfold bind. by destruct (m self) as [[a|e] self']. Qed.

Lemma with_paths_self self : with_paths self (paths self) = self.
Proof. by destruct self. Qed.

(** ** [filter]: what it does to the object *)

(** Every loop of [filter] leaves the object alone except for items added at
    the end of [paths]; the outcome and the items added do not depend on the
    items already there. *)
Section FilterFrame.

Variable c : Criteria.
Variable P : Item → Prop.
Hypothesis song_item_P :
  ∀ song source gts,
    song_source_gts c song = Ok (source, gts) → P (song_item c song source gts).

Lemma appends_ret {A} (a : A) self : appends P (ret a) self.
Proof. exists (Ok a), []. split; [done|]. intros p. by rewrite app_nil_r. Qed.

Lemma appends_bind {A B} (m : Py A) (f : A → Py B) self :
  appends P m self → (∀ a, appends P (f a) self) → appends P (bind m f) self.
Proof.
  intros (r & l & Hl & Hm) Hf. destruct r as [a|e].
  - destruct (Hf a) as (r' & l' & Hl' & Hfa). exists r', (l ++ l').
    split; [by apply Forall_app|]. intros p.
    unfold bind. by rewrite Hm, Hfa, app_assoc.
  - exists (Raise e), l. split; [done|]. intros p. unfold bind. by rewrite Hm.
Qed.

Lemma appends_filter_song song FLAG self :
  appends P (filter_song c song FLAG) self.
Proof.
  unfold filter_song. destruct (song_flag c song FLAG); [|apply appends_ret].
  destruct (song_source_gts c song) as [[source gts]|e] eqn:Hsong.
  - exists (Ok true), [song_item c song source gts].
    split; [by repeat constructor; apply song_item_P|]. done.
  - exists (Raise e), []. split; [done|]. intros p. by rewrite app_nil_r.
Qed.

Lemma appends_filter_songs songs FLAG self :
  appends P (filter_songs c songs FLAG) self.
Proof.
  revert FLAG. induction songs as [|song songs IH]; intros FLAG; simpl.
  - apply appends_ret.
  - apply appends_bind; [apply appends_filter_song | intros F; apply IH].
Qed.

Lemma appends_filter_dataset mydataset self :
  appends P (filter_dataset c mydataset) self.
Proof.
  unfold filter_dataset. destruct (dataset_flag c mydataset) as [[|]|e].
  - apply (appends_bind (ret true));
      [apply appends_ret | intros FLAG].
    destruct FLAG; [|apply appends_ret].
    apply appends_bind; [apply appends_filter_songs | intros _; apply appends_ret].
  - apply (appends_ret tt).
  - exists (Raise e), []. split; [done|]. intros p. by rewrite app_nil_r.
Qed.

Lemma appends_filter_datasets dss self :
  appends P (filter_datasets c dss) self.
Proof.
  induction dss as [|mydataset dss IH]; simpl.
  - apply appends_ret.
  - apply appends_bind; [apply appends_filter_dataset | intros _; apply IH].
Qed.

Lemma appends_filter self :
  ∃ r l, (r = Ok PyNone ∨ ∃ e, r = Raise e) ∧ Forall P l ∧
         ∀ p, filter c (with_paths self p) = (r, with_paths self (p ++ l)).
Proof.
  destruct (appends_filter_datasets (m_datasets (data self)) self)
    as (r & l & Hl & H).
  exists (match r with Ok _ => Ok PyNone | Raise e => Raise e end), l.
  split; [destruct r; eauto|]. split; [done|].
  intros p. unfold filter, bind. simpl. rewrite H. by destruct r.
Qed.

End FilterFrame.

Lemma filter_frame c self :
  ∃ r l, (r = Ok PyNone ∨ ∃ e, r = Raise e) ∧
         ∀ p, filter c (with_paths self p) = (r, with_paths self (p ++ l)).
Proof.
  destruct (appends_filter c (λ _, True) (λ _ _ _ _, I) self)
    as (r & l & Hr & _ & H).
  eauto.
Qed.

(** Once the flag is down, the remaining songs of the dataset are passed
    over. *)
Lemma song_flag_false c song : song_flag c song false = false.
Proof.
  unfold song_flag. by repeat case_match.
Qed.

Lemma filter_songs_flag_down c songs self :
  filter_songs c songs false self = (Ok false, self).
Proof.
  induction songs as [|song songs IH]; [done|]. simpl.
  unfold bind, filter_song. rewrite song_flag_false. simpl. apply IH.
Qed.

Lemma filter_appends c self :
  filter c self =
    ((filter c (with_paths self [])).1,
     with_paths self (paths self ++ paths (filter c (with_paths self [])).2)).
Proof.
  destruct (filter_frame c self) as (r & l & _ & H).
  rewrite <- (with_paths_self self) at 1. by rewrite !H.
Qed.

(** A second call finds the items of the first one and adds its own. *)
Lemma filter_again c self :
  let items := paths (filter c (with_paths self [])).2 in
  paths (filter c (filter c self).2).2 = paths self ++ items ++ items.
Proof.
  destruct (filter_frame c self) as (r & l & _ & H). intros items.
  subst items. rewrite (filter_appends c self). simpl. rewrite !H. simpl.
  by rewrite <- app_assoc.
Qed.

Lemma list_index_absent x l :
  list_contains x l = false → list_index x l = Raise ValueError.
Proof.
  unfold list_contains. intros H. apply bool_decide_eq_false in H.
  induction l as [|y l IH]; [done|]. simpl.
  apply not_elem_of_cons in H as [Hne Hl].
  destruct (decide (y = x)); [congruence|]. by rewrite IH.
Qed.

(** C1, at the input where the code departs from it: in a dataset admitted by
    the dataset-level pass whose first song fails the composer check, the
    second song satisfies every song-level predicate on its own, and [filter]
    still adds nothing: the flag cleared by the first song is never set
    again. *)
Theorem filter_drops_song_after_rejected_one :
  dataset_flag (by_composer "ach") (dataset_D [song_mozart; song_bach]) = Ok true ∧
  song_flag (by_composer "ach") song_mozart true = false ∧
  song_flag (by_composer "ach") song_bach true = true ∧
  filter (by_composer "ach") (init manifest_two) = (Ok PyNone, init manifest_two).
Proof. by vm_compute. Qed.

(** C2, at the input where the code departs from it: on the scenario's
    manifest the first call of [filter] leaves one item in [paths], and a
    second call with the same criteria leaves two. *)
Theorem filter_twice_accumulates :
  let once := (filter (by_instrument "violin") (init manifest_one)).2 in
  let twice := (filter (by_instrument "violin") once).2 in
  paths once = [item_bach] ∧ paths twice = [item_bach; item_bach].
Proof. by vm_compute. Qed.



(** C6 as stated fails: with [sources=True], [all=False] and an instrument
    that the dataset lists and the song does not, the song is passed over
    and [filter] ends normally. *)
Lemma filter_skips_absent_instrument :
  list_contains "cello" (song_instruments song_duo) = false ∧
  song_sources_path song_duo ≠ None ∧
  filter (single_source "cello") (init manifest_duo)
    = (Ok PyNone, init manifest_duo).
Proof. by vm_compute. Qed.

Lemma filter_songs_app c songs1 songs2 FLAG self :
  filter_songs c (songs1 ++ songs2) FLAG self
    = (let! FLAG := filter_songs c songs1 FLAG in filter_songs c songs2 FLAG) self.
Proof.
  revert FLAG self. induction songs1 as [|song songs1 IH]; intros FLAG self.
  - done.
  - simpl. rewrite bind_assoc. apply bind_ext. intros FLAG' self'. apply IH.
Qed.

Lemma filter_datasets_app c dss1 dss2 self :
  filter_datasets c (dss1 ++ dss2) self
    = (let! _ := filter_datasets c dss1 in filter_datasets c dss2) self.
Proof.
  revert self. induction dss1 as [|mydataset dss1 IH]; intros self.
  - done.
  - simpl. rewrite bind_assoc. apply bind_ext. intros _ self'. apply IH.
Qed.

(** The body of the song loop on a song that lacks the requested
    instrument, in single-source mode. *)
Lemma filter_song_absent_instrument c song spath self :
  sources c = true →
  all c = false →
  list_contains (instrument c) (song_instruments song) = false →
  song_sources_path song = Some spath →
  negb (str_nonempty (composer c))
    || str_contains (composer c) (song_composer song) = true →
  filter_song c song true self =
    if str_nonempty (instrument c) then (Ok false, self)
    else (Raise ValueError, self).
Proof.
  intros Hsrc Hall Hin Hsp Hcomp.
  unfold filter_song, song_flag. rewrite Hin.
  destruct (str_nonempty (instrument c)); simpl.
  - by repeat case_match.
  - assert (song_source_gts c song = Raise ValueError) as Hraise.
    { unfold song_source_gts. rewrite Hsp, Hsrc, Hall.
      by rewrite (list_index_absent _ _ Hin). }
    destruct (str_nonempty (composer c)); simpl in Hcomp;
      rewrite ?Hcomp; simpl; unfold bind, lift; by rewrite Hraise.
Qed.

(** C6, amended: let a song be reached by [filter] with the flag set (the
    datasets before its own and the songs before it in its dataset went
    through without an exception and without clearing the flag), let it pass
    the composer check and have a "sources" entry, and let the criteria ask
    for a single source ([sources=True], [all=False]) of an instrument that
    is not in the song's list. If the instrument criterion is the empty
    string, [filter] fails there with the element-not-found error of [index];
    if it is not empty, the song and the rest of its dataset are passed over
    silently and [filter] goes on with the next dataset. *)
Theorem filter_absent_instrument
    c self dss1 mydataset dss2 songs1 song songs2 spath self1 self2 :
  m_datasets (data self) = dss1 ++ mydataset :: dss2 →
  filter_datasets c dss1 self = (Ok tt, self1) →
  dataset_flag c mydataset = Ok true →
  ds_songs mydataset = songs1 ++ song :: songs2 →
  filter_songs c songs1 true self1 = (Ok true, self2) →
  sources c = true →
  all c = false →
  list_contains (instrument c) (song_instruments song) = false →
  song_sources_path song = Some spath →
  negb (str_nonempty (composer c))
    || str_contains (composer c) (song_composer song) = true →
  filter c self =
    if str_nonempty (instrument c)
    then (let! _ := filter_datasets c dss2 in ret PyNone) self2
    else (Raise ValueError, self2).
Proof.
  intros Hds Hbefore Hflag Hsongs Hsongs1 Hsrc Hall Hin Hsp Hcomp.
  assert (filter_dataset c mydataset self1 =
            if str_nonempty (instrument c) then (Ok tt, self2)
            else (Raise ValueError, self2)) as Hdataset.
  { unfold filter_dataset, bind, lift. rewrite Hflag, Hsongs, filter_songs_app.
    unfold bind. rewrite Hsongs1. cbn [filter_songs]. unfold bind.
    rewrite (filter_song_absent_instrument c song spath) by done.
    destruct (str_nonempty (instrument c)); [|done].
    by rewrite filter_songs_flag_down. }
  unfold filter. rewrite Hds. unfold bind at 1. rewrite filter_datasets_app.
  unfold bind at 1. rewrite Hbefore. cbn [filter_datasets]. unfold bind at 1.
  rewrite Hdataset. by destruct (str_nonempty (instrument c)).
Qed.

Lemma filter_absent_instrument_witness :
  filter (single_source "") (init manifest_mixed)
    = (Raise ValueError,
       with_paths (init manifest_mixed) [item_bach; item_mozart]).
Proof.
  apply (filter_absent_instrument (single_source "") (init manifest_mixed)
           [dataset_D [song_bach]] dataset_F [] [song_mozart] song_duo []
           [JArr [JStr "duo_violin.wav"]; JArr [JStr "duo_piano.wav"]]
           (with_paths (init manifest_mixed) [item_bach]));
    reflexivity.
Defined.

(** ** [truncate_score] *)

Lemma length_to_truncate_amended gt : length_to_truncate gt = amended_length gt.
Proof.
  unfold length_to_truncate, amended_length, all_observed_lengths,
    observed_lengths, truncate_length_step, score_types.
  simpl. repeat case_match; simpl; lia.
Qed.

Lemma truncate_score_entries gt t :
  gt_get (truncate_score gt) t = truncated (length_to_truncate gt) (gt_get gt t).
Proof.
  unfold truncate_score. generalize (length_to_truncate gt) as n. intros n.
  by destruct gt, t.
Qed.

(** C5 as stated fails: in a record whose [non_aligned] entry has two pitches
    and no onsets while the two other entries have three onsets and three
    pitches, the least length among the score types with onsets is 3, and
    the lists are cut to 2. *)
Lemma truncate_score_counts_non_aligned_pitches :
  list_min (all_observed_lengths gt_short_pitches) = Some 3%nat ∧
  pitches (broad_alignment (truncate_score gt_short_pitches)) = [q 60; q 62] ∧
  pitches (broad_alignment (truncate_score gt_short_pitches))
    ≠ take 3 (pitches (broad_alignment gt_short_pitches)).
Proof. by vm_compute. Qed.

(** C5, amended: a truncating call replaces, in all three score types, the
    pitches, velocities, onsets and offsets by their first L elements, where
    L is the least of the number of pitches of [non_aligned] (counted whether
    or not [non_aligned] has onsets) and, over the score types whose onsets
    are non-empty, of that score type's onsets length and pitches length; the
    instrument and the beats are left as they are. *)
Theorem truncate_score_amended gt :
  (∀ t, gt_get (truncate_score gt) t = truncated (amended_length gt) (gt_get gt t)) ∧
  gt_instrument (truncate_score gt) = gt_instrument gt ∧
  beats_non_aligned (truncate_score gt) = beats_non_aligned gt.
Proof.
  split; [|by destruct gt].
  intros t. rewrite <- length_to_truncate_amended. apply truncate_score_entries.
Qed.

(** ** The reconciliation of [get_score] *)

(** C3, at the input where the code departs from it: with three pitches, two
    onsets and no offsets or velocities, the onsets and the velocities come
    out with three entries and the offsets with a single sentinel, because
    the padding by [missing = 1] has already made them non-empty when the
    emptiness test is reached; the six rows then do not form a matrix and
    [get_score] fails. *)
Theorem reconcile_leaves_offsets_short :
  reconcile score_ragged
    = {| pitches := [q 60; q 62; q 64];
         onsets := [q 0; 1 # 2; sentinel];
         offsets := [sentinel];
         velocities := [sentinel; sentinel; sentinel] |} ∧
  get_score decode_ragged dataset_scenario 0 "non_aligned" false
    = Raise ValueError.
Proof. by vm_compute. Qed.

(** C9: when the four sequences of a score have one length, the
    reconciliation returns them as they are, and so does a second pass. *)
Theorem reconcile_equal_lengths s :
  length (pitches s) = length (onsets s) →
  length (offsets s) = length (onsets s) →
  length (velocities s) = length (onsets s) →
  reconcile s = s ∧ reconcile (reconcile s) = reconcile s.
Proof.
  intros Hp Hf Hv.
  assert (reconcile s = s) as H; [|by rewrite !H].
  destruct s as [p o f v]. simpl in *. unfold reconcile, len, full_like. simpl.
  destruct o as [|x o].
  - destruct p, f, v; try discriminate. done.
  - destruct p as [|y p], f as [|z f], v as [|w v]; try discriminate.
    simpl in *. rewrite Hp, Z.sub_diag. simpl. rewrite !app_nil_r. simpl.
    by rewrite Hp, Hv, Z.sub_diag.
Qed.

Lemma reconcile_equal_lengths_witness :
  reconcile score_three = score_three ∧
  reconcile (reconcile score_three) = reconcile score_three.
Proof. apply (reconcile_equal_lengths score_three); reflexivity. Defined.

(** ** The ordering by onset *)

Lemma Qle_bool_false x y : Qle_bool x y = false → Qle y x.
Proof.
  intros H. apply Qlt_le_weak, Qnot_le_lt. intros Hle.
  apply Qle_bool_iff in Hle. congruence.
Qed.

Lemma insert_key_sorted x l :
  Sorted Qle (map fst l) → Sorted Qle (map fst (insert_key x l)).
Proof.
  induction l as [|y l IH]; simpl; intros Hs.
  - by repeat constructor.
  - destruct (Qle_bool x.1 y.1) eqn:Hxy; simpl.
    + constructor; [done|]. constructor. by apply Qle_bool_iff.
    + apply Sorted_inv in Hs as [Hs Hhd]. constructor; [by apply IH|].
      destruct l as [|z l]; simpl in *.
      * constructor. by apply Qle_bool_false.
      * apply HdRel_inv in Hhd.
        destruct (Qle_bool x.1 z.1); simpl; constructor;
          [by apply Qle_bool_false | done].
Qed.

Lemma sort_keys_sorted l : Sorted Qle (map fst (sort_keys l)).
Proof.
  induction l as [|x l IH]; simpl; [constructor|].
  by apply insert_key_sorted.
Qed.

Lemma insert_key_Forall (R : Q * nat → Prop) x l :
  R x → Forall R l → Forall R (insert_key x l).
Proof.
  intros Hx. induction 1 as [|y l Hy Hl IH]; simpl.
  - by repeat constructor.
  - destruct (Qle_bool x.1 y.1); repeat constructor; done.
Qed.

Lemma sort_keys_Forall (R : Q * nat → Prop) l :
  Forall R l → Forall R (sort_keys l).
Proof.
  induction 1 as [|x l Hx Hl IH]; simpl; [constructor|].
  by apply insert_key_Forall.
Qed.

(** Each key travels with its own position. *)
Lemma zip_positions (a : list Q) :
  Forall (λ x : Q * nat, nth x.2 a 0%Q = x.1) (zip a (seq 0 (length a))).
Proof.
  apply Forall_forall. intros [k i] Hin.
  apply list_elem_of_lookup in Hin as [j Hj].
  apply lookup_zip_with_Some in Hj as (k' & i' & Heq & Hk & Hi).
  injection Heq as -> ->. apply lookup_seq in Hi as [-> _]. simpl.
  by apply nth_lookup_Some.
Qed.

(** The values of [a], read in the order given by [argsort], ascend. *)
Lemma argsort_sorted a :
  Sorted Qle (map (λ i, nth i a 0%Q) (argsort a)).
Proof.
  unfold argsort. rewrite map_map.
  pose proof (sort_keys_Forall _ _ (zip_positions a)) as Hpos.
  pose proof (sort_keys_sorted (zip a (seq 0 (length a)))) as Hsorted.
  revert Hpos Hsorted. generalize (sort_keys (zip a (seq 0 (length a)))).
  intros l Hpos Hsorted.
  replace (map (λ x : Q * nat, nth x.2 a 0%Q) l) with (map fst l); [done|].
  clear Hsorted. induction Hpos as [|x l Hx Hl IH]; simpl; [done|].
  by rewrite Hx, IH.
Qed.

Lemma py_getitem_nat {A} (l : list A) (i : nat) x :
  py_getitem l (Z.of_nat i) = Ok x → l !! i = Some x.
Proof.
  unfold py_getitem.
  replace (Z.of_nat i <? 0)%Z with false by (symmetry; apply Z.ltb_ge; lia).
  rewrite Nat2Z.id. destruct (_ || _); [done|].
  destruct (l !! i); [|done]. by intros [= ->].
Qed.

Lemma rows_at_nth mat perm m :
  rows_at mat perm = Ok m → m = map (λ i, nth i mat []) perm.
Proof.
  revert m. induction perm as [|i perm IH]; simpl; intros m H.
  - by injection H as <-.
  - destruct (py_getitem mat (Z.of_nat i)) as [row|] eqn:Hrow; [|done].
    destruct (rows_at mat perm) as [rows|]; [|done]. simpl in H.
    injection H as <-. apply py_getitem_nat in Hrow.
    by rewrite (nth_lookup_Some _ _ _ _ Hrow), (IH rows).
Qed.

Lemma merge_blocks_sorted blocks m :
  merge_blocks blocks = Ok m → Sorted Qle (column 1 m).
Proof.
  unfold merge_blocks. destruct (if (1 <? length blocks)%nat then _ else _)
    as [mat|]; [|done]. simpl.
  generalize (transpose mat). clear mat. intros mat Hrows.
  apply rows_at_nth in Hrows as ->. unfold column at 1. rewrite map_map.
  pose proof (argsort_sorted (column 1 mat)) as Hsorted.
  erewrite map_ext; [exact Hsorted|].
  intros i. simpl. unfold column.
  by rewrite <- (map_nth (λ row : list Q, nth 1 row 0%Q) mat [] i).
Qed.

(** C7: whenever [get_score] returns a matrix, its onset column (column 1)
    ascends down the rows, whatever the number of ground-truth records the
    rows come from. *)
Theorem get_score_sorted load_gt self idx score_type truncate m :
  get_score load_gt self idx score_type truncate = Ok m →
  Sorted Qle (column 1 m).
Proof.
  unfold get_score. destruct (get_gts load_gt self idx) as [gts|]; [|done].
  simpl. destruct (score_blocks 0 gts score_type truncate []) as [blocks|];
    [|done].
  apply merge_blocks_sorted.
Qed.

Lemma get_score_sorted_witness :
  get_score decode_duo dataset_duo_scores 0 "non_aligned" false
    = Ok [[q 48; q 0; q 1; q 70; q 0; q 1];
          [q 67; q 1; q 2; q 80; q 40; q 0];
          [q 50; q 2; q 3; q 70; q 0; q 1];
          [q 69; q 3; q 4; q 80; q 40; q 0]] ∧
  Sorted Qle (column 1
    [[q 48; q 0; q 1; q 70; q 0; q 1];
     [q 67; q 1; q 2; q 80; q 40; q 0];
     [q 50; q 2; q 3; q 70; q 0; q 1];
     [q 69; q 3; q 4; q 80; q 40; q 0]]).
Proof.
  split; [reflexivity|].
  apply (get_score_sorted decode_duo dataset_duo_scores 0 "non_aligned" false).
  reflexivity.
Defined.

(** ** The audio accessors *)

Lemma map_zip_with_float (float_add : Q → Q → Q) (float_div : Q → Z → Q)
    (n : Z) (w1 w2 : list Q) :
  map (λ x, float_div x n) (zip_with float_add w1 w2)
    = zip_with (λ a b, float_div (float_add a b) n) w1 w2.
Proof.
  revert w2. induction w1 as [|a w1 IH]; intros [|b w2]; simpl; try done.
  by rewrite IH.
Qed.

Lemma mean_of_two (float_add : Q → Q → Q) (float_div : Q → Z → Q)
    (w1 w2 : list Q) :
  map (λ x, float_div x (len [w1; w2])) (zip_with float_add w1 w2)
    = mean2 float_add float_div w1 w2.
Proof. apply (map_zip_with_float float_add float_div 2%Z). Qed.

(** With operations that do not round, [mean2] is the exact mean. *)
Lemma mean2_exact (w1 w2 : list Q) :
  mean2 Qplus exact_div w1 w2 = zip_with (λ a b, (a + b) / 2)%Q w1 w2.
Proof. reflexivity. Qed.

(** C8: for an item with one mix path, [get_mix] returns the samples and the
    rate that the audio reader gives for that file, with no arithmetic on
    them; for an item with two mix paths whose files have the same number
    of samples, it returns their elementwise arithmetic mean as numpy takes
    it, each pair of samples float-added and the sum float-divided by two,
    whatever the rounding of these two operations is (with the rate of the
    second file). *)
Theorem get_mix_one_or_two float_add float_div open_audio self idx item :
  py_getitem (paths self) idx = Ok item →
  (∀ p w sr,
     it_mix item = [p] →
     open_audio (os_path_join (install_dir self) p) = Ok (w, sr) →
     get_mix float_add float_div open_audio self idx = Ok (w, sr)) ∧
  (∀ p1 p2 w1 w2 sr1 sr2,
     it_mix item = [p1; p2] →
     open_audio (os_path_join (install_dir self) p1) = Ok (w1, sr1) →
     open_audio (os_path_join (install_dir self) p2) = Ok (w2, sr2) →
     length w1 = length w2 →
     get_mix float_add float_div open_audio self idx
       = Ok (mean2 float_add float_div w1 w2, sr2)).
Proof.
  intros Hitem. split.
  - intros p w sr Hmix Hopen. unfold get_mix. rewrite Hitem. simpl.
    rewrite Hmix. simpl. by rewrite Hopen.
  - intros p1 p2 w1 w2 sr1 sr2 Hmix Hopen1 Hopen2 Hlen.
    unfold get_mix. rewrite Hitem. simpl. rewrite Hmix. simpl.
    rewrite Hopen1. simpl. rewrite Hopen2. simpl.
    unfold np_mean_axis0. simpl. rewrite Hlen, Nat.eqb_refl. simpl.
    do 2 f_equal. apply mean_of_two.
Qed.

Lemma get_mix_one_or_two_witness :
  get_mix Qplus exact_div read_two dataset_stereo 0
    = Ok ([q 1; q 2; q 3], 44100%Z) ∧
  get_mix Qplus exact_div read_two dataset_stereo 1
    = Ok ([(q 1 + q 3) / 2; (q 2 + q 2) / 2; (q 3 + q 0) / 2]%Q, 22050%Z).
Proof.
  split.
  - apply (proj1 (get_mix_one_or_two Qplus exact_div read_two dataset_stereo
                    0 _ eq_refl)
             "left.wav"); reflexivity.
  - apply (proj2 (get_mix_one_or_two Qplus exact_div read_two dataset_stereo
                    1 _ eq_refl)
             "left.wav" "right.wav" [q 1; q 2; q 3] [q 3; q 2; q 0]
             44100%Z 22050%Z); reflexivity.
Defined.

(** Without [sources=True] every item that [filter] adds has an empty list
    of source paths. *)
Lemma filter_without_sources c self :
  sources c = false →
  Forall (λ it, it_source it = JArr [])
         (paths (filter c (with_paths self [])).2).
Proof.
  intros Hsrc.
  destruct (appends_filter c (λ it, it_source it = JArr [])) with (self := self)
    as (r & l & _ & Hl & H).
  - intros song source gts. unfold song_source_gts. rewrite Hsrc.
    destruct (song_sources_path song); by intros [= <- <-].
  - by rewrite (H []).
Qed.

(** C10: for an item whose list of source paths is empty, the loop of
    [get_source] never binds [sr] and the method raises where it reads it;
    [get_item] then fails too, with that error or with the one [get_mix]
    raised before. These are the items [filter] adds whenever [sources] is
    false. *)
Theorem get_source_unbound_rate float_add float_div open_audio load_gt :
  (∀ self idx item,
     py_getitem (paths self) idx = Ok item →
     it_source item = JArr [] →
     get_source open_audio self idx = Raise UnboundLocalError ∧
     get_item float_add float_div open_audio load_gt self idx =
       match get_mix float_add float_div open_audio self idx with
       | Ok _ => Raise UnboundLocalError
       | Raise e => Raise e
       end) ∧
  (∀ c self,
     sources c = false →
     paths (filter c self).2
       = paths self ++ paths (filter c (with_paths self [])).2 ∧
     Forall (λ it, it_source it = JArr [])
            (paths (filter c (with_paths self [])).2)).
Proof.
  split.
  - intros self idx item Hitem Hsrc.
    assert (get_source open_audio self idx = Raise UnboundLocalError) as H.
    { unfold get_source. rewrite Hitem. simpl. by rewrite Hsrc. }
    split; [done|]. unfold get_item. rewrite H.
    by destruct (get_mix float_add float_div open_audio self idx).
  - intros c self Hsrc. split; [|by apply filter_without_sources].
    by rewrite filter_appends.
Qed.

Lemma get_source_unbound_rate_witness :
  get_source read_any dataset_scenario 0 = Raise UnboundLocalError ∧
  get_item Qplus exact_div read_any decode_ragged dataset_scenario 0
    = Raise UnboundLocalError.
Proof.
  apply (proj1 (get_source_unbound_rate Qplus exact_div read_any decode_ragged)
           dataset_scenario 0%Z item_bach); reflexivity.
Defined.

(** * Further properties of the code *)

(** ** Indexing *)

(** Case analysis on the integer comparisons of the goal. *)
Ltac zcompare :=
  repeat match goal with
    | |- context [(?a <? ?b)%Z] => destruct (Z.ltb_spec a b); try lia
    | |- context [(?a <=? ?b)%Z] => destruct (Z.leb_spec a b); try lia
    | |- context [(?a =? ?b)%Z] => destruct (Z.eqb_spec a b); try lia
    end; simpl.

Lemma py_getitem_lookup {A} (l : list A) (k : nat) x :
  l !! k = Some x → py_getitem l (Z.of_nat k) = Ok x.
Proof.
  intros H. pose proof (lookup_lt_Some _ _ _ H) as Hlt. unfold py_getitem.
  zcompare. by rewrite Nat2Z.id, H.
Qed.

Lemma py_getitem_beyond {A} (l : list A) (i : Z) :
  (len l ≤ i)%Z → py_getitem l i = Raise IndexError.
Proof. unfold len, py_getitem. intros H. by zcompare. Qed.

Lemma py_getitem_before {A} (l : list A) (i : Z) :
  (i < - len l)%Z → py_getitem l i = Raise IndexError.
Proof. unfold len, py_getitem. intros H. by zcompare. Qed.

Lemma py_getitem_negative {A} (l : list A) (i : Z) :
  (- len l ≤ i < 0)%Z → py_getitem l i = py_getitem l (i + len l).
Proof. unfold len, py_getitem. intros H. by zcompare. Qed.

Lemma py_getitem_last {A} (l : list A) x :
  py_getitem (l ++ [x]) (-1) = Ok x.
Proof.
  rewrite py_getitem_negative by (unfold len; rewrite length_app; simpl; lia).
  replace (-1 + len (l ++ [x]))%Z with (Z.of_nat (length l))
    by (unfold len; rewrite length_app; simpl; lia).
  apply py_getitem_lookup. by rewrite lookup_app_r, Nat.sub_diag.
Qed.

Lemma py_getitem_Ok_elem {A} (l : list A) (i : Z) x :
  py_getitem l i = Ok x → x ∈ l.
Proof.
  unfold py_getitem. destruct (_ || _); [done|].
  destruct (l !! _) eqn:H; [|done]. intros [= <-].
  by eapply list_elem_of_lookup_2.
Qed.

Lemma list_index_first x l k :
  l !! k = Some x → (∀ j, (j < k)%nat → l !! j ≠ Some x) →
  list_index x l = Ok (Z.of_nat k).
Proof.
  revert k. induction l as [|y l IH]; intros k Hk Hfirst; [done|]. simpl.
  destruct k as [|k].
  - injection Hk as ->. by rewrite decide_True.
  - rewrite decide_False.
    + rewrite (IH k); [simpl; f_equal; lia | done |].
      intros j Hj. apply (Hfirst (S j)). lia.
    + intros ->. by apply (Hfirst 0%nat); [lia|].
Qed.

Lemma list_index_nonneg x l k : list_index x l = Ok k → (0 ≤ k)%Z.
Proof.
  revert k. induction l as [|y l IH]; intros k; [done|]. simpl.
  destruct (decide (y = x)); [intros [= <-]; lia|].
  destruct (list_index x l) as [i|]; [|done]. simpl. intros [= <-].
  specialize (IH i eq_refl). lia.
Qed.

(** ** [filter] without sources *)

Lemma song_source_gts_plain c song :
  sources c = false →
  song_source_gts c song = Ok (JArr [], JArr (song_ground_truth song)).
Proof.
  intros H. unfold song_source_gts. rewrite H.
  by destruct (song_sources_path song).
Qed.

Lemma filter_songs_plain c songs self :
  sources c = false →
  filter_songs c songs true self
    = (Ok (forallb (λ song, song_flag c song true) songs),
       with_paths self
         (paths self ++ map (plain_item c) (leading_run c songs))).
Proof.
  intros Hsrc. revert self.
  induction songs as [|song songs IH]; intros self; simpl.
  - by rewrite app_nil_r, with_paths_self.
  - unfold bind, filter_song. destruct (song_flag c song true) eqn:Hflag.
    + unfold lift. rewrite (song_source_gts_plain c song Hsrc). simpl.
      rewrite IH. simpl. unfold with_paths. simpl.
      by rewrite <- app_assoc.
    + simpl. by rewrite filter_songs_flag_down, app_nil_r, with_paths_self.
Qed.

Lemma filter_datasets_plain c dss self :
  sources c = false →
  forallb (flag_computed c) dss = true →
  filter_datasets c dss self
    = (Ok tt,
       with_paths self
         (paths self ++
          concat (map (λ mydataset,
                         if admitted c mydataset
                         then map (plain_item c)
                                  (leading_run c (ds_songs mydataset))
                         else [])
                      dss))).
Proof.
  intros Hsrc. revert self.
  induction dss as [|mydataset dss IH]; intros self Hflags; simpl.
  - by rewrite app_nil_r, with_paths_self.
  - simpl in Hflags. apply andb_true_iff in Hflags as [Hflag Hflags].
    unfold bind at 1. unfold filter_dataset, bind, lift.
    unfold flag_computed in Hflag. unfold admitted.
    destruct (dataset_flag c mydataset) as [[|]|e]; [| |done].
    + rewrite (filter_songs_plain c _ _ Hsrc). simpl.
      rewrite (IH _ Hflags). simpl. unfold with_paths. simpl.
      by rewrite <- app_assoc.
    + simpl. by rewrite (IH _ Hflags).
Qed.

(** X1: when no sources are asked for and the dataset-level flag can be
    computed for every dataset, [filter] does not raise; it adds, for each
    admitted dataset in manifest order, the items of the songs at the front
    of the dataset up to the first one that fails a song-level check. *)
Theorem filter_plain c self :
  sources c = false →
  forallb (flag_computed c) (m_datasets (data self)) = true →
  filter c self
    = (Ok PyNone,
       with_paths self (paths self ++ selected_items c (data self))).
Proof.
  intros Hsrc Hflags. unfold filter, bind.
  by rewrite (filter_datasets_plain c _ _ Hsrc Hflags).
Qed.

Lemma filter_plain_witness :
  filter (by_instrument "violin") (init manifest_mixed)
    = (Ok PyNone,
       with_paths (init manifest_mixed)
         [item_bach; item_mozart;
          plain_item (by_instrument "violin") song_duo]).
Proof.
  apply (filter_plain (by_instrument "violin") (init manifest_mixed));
    reflexivity.
Defined.

(** ** [filter] and the ground-truth kinds *)

Lemma ground_truth_loop_missing support reqs1 k level reqs2 FLAG :
  forallb (λ gt : string * Z, bool_decide (support !! gt.1 = Some gt.2)) reqs1
    = true →
  support !! k = None →
  ground_truth_loop support (reqs1 ++ (k, level) :: reqs2) FLAG
    = Raise KeyError.
Proof.
  intros Hreqs Hk. induction reqs1 as [|gt reqs1 IH]; simpl.
  - by rewrite Hk.
  - simpl in Hreqs. apply andb_true_iff in Hreqs as [Hgt Hreqs].
    apply bool_decide_eq_true in Hgt. rewrite Hgt.
    rewrite bool_decide_eq_false_2 by (intros H; by apply H). by apply IH.
Qed.

(** X2: a required ground-truth kind that a dataset does not declare makes
    [filter] fail with a [KeyError] when it reaches that dataset (the kinds
    required before it being met), whatever the other criteria say about the
    dataset, even when its name is not among the requested ones; the items
    added so far stay. *)
Theorem filter_missing_kind
    c self dss1 mydataset dss2 reqs1 k level reqs2 self1 :
  m_datasets (data self) = dss1 ++ mydataset :: dss2 →
  filter_datasets c dss1 self = (Ok tt, self1) →
  ground_truth c = reqs1 ++ (k, level) :: reqs2 →
  forallb (λ gt : string * Z,
             bool_decide (ds_ground_truth mydataset !! gt.1 = Some gt.2))
          reqs1 = true →
  ds_ground_truth mydataset !! k = None →
  filter c self = (Raise KeyError, self1).
Proof.
  intros Hds Hbefore Hgt Hreqs Hk.
  unfold filter. rewrite Hds. unfold bind at 1. rewrite filter_datasets_app.
  unfold bind at 1. rewrite Hbefore. cbn [filter_datasets]. unfold bind at 1.
  unfold filter_dataset, bind, lift, dataset_flag. rewrite Hgt.
  by rewrite (ground_truth_loop_missing _ _ _ _ _ _ Hreqs Hk).
Qed.

Lemma filter_missing_kind_witness :
  list_contains "D" (datasets other_dataset_with_tempo) = false ∧
  filter other_dataset_with_tempo (init manifest_one)
    = (Raise KeyError, init manifest_one).
Proof.
  split; [reflexivity|].
  apply (filter_missing_kind other_dataset_with_tempo (init manifest_one)
           [] (dataset_D [song_bach]) [] [("beats", 1%Z)] "tempo" 1%Z []);
    reflexivity.
Defined.

(** ** [filter] in single-source mode *)

(** X3: in single-source mode ([sources=True], [all=False]) a song that
    passes the song-level checks and has a "sources" entry gets an item whose
    source and ground truth are the entries of [sources.path] and
    [ground_truth] at the first position of the instrument in the song's
    list. *)
Theorem filter_song_single_source c song spath k source gts self :
  sources c = true →
  all c = false →
  song_flag c song true = true →
  song_sources_path song = Some spath →
  song_instruments song !! k = Some (instrument c) →
  (∀ j, (j < k)%nat → song_instruments song !! j ≠ Some (instrument c)) →
  spath !! k = Some source →
  song_ground_truth song !! k = Some gts →
  filter_song c song true self
    = (Ok true, with_paths self (paths self ++ [song_item c song source gts])).
Proof.
  intros Hsrc Hall Hflag Hsp Hk Hfirst Hsource Hgts.
  unfold filter_song. rewrite Hflag. unfold bind, lift, song_source_gts.
  rewrite Hsp, Hsrc, Hall, (list_index_first _ _ _ Hk Hfirst). simpl.
  by rewrite (py_getitem_lookup _ _ _ Hsource), (py_getitem_lookup _ _ _ Hgts).
Qed.

Lemma filter_song_single_source_witness :
  filter_song (single_source "piano") song_duo true (init manifest_duo)
    = (Ok true,
       with_paths (init manifest_duo)
         [{| it_mix := ["duo.wav"];
             it_source := JArr [JStr "duo_piano.wav"];
             it_gts := JArr [JStr "duo_piano.gt.gz"] |}]).
Proof.
  apply (filter_song_single_source (single_source "piano") song_duo
           [JArr [JStr "duo_violin.wav"]; JArr [JStr "duo_piano.wav"]]
           1%nat (JArr [JStr "duo_piano.wav"]) (JArr [JStr "duo_piano.gt.gz"])
           (init manifest_duo)); try reflexivity.
  intros [|j] Hj; [discriminate | lia].
Defined.

(** X4: in single-source mode, when the first position of the instrument in
    the song's list lies beyond the end of [sources.path] or of
    [ground_truth], the song loop fails with an [IndexError] and adds
    nothing for this song. *)
Theorem filter_songs_short_sources c song songs spath k self :
  sources c = true →
  all c = false →
  song_flag c song true = true →
  song_sources_path song = Some spath →
  list_index (instrument c) (song_instruments song) = Ok k →
  (len spath ≤ k ∨ len (song_ground_truth song) ≤ k)%Z →
  filter_songs c (song :: songs) true self = (Raise IndexError, self).
Proof.
  intros Hsrc Hall Hflag Hsp Hk Hshort. simpl.
  unfold bind, filter_song. rewrite Hflag. unfold bind, lift, song_source_gts.
  rewrite Hsp, Hsrc, Hall, Hk. simpl.
  destruct (py_getitem spath k) as [source|e] eqn:Hsource; simpl.
  - destruct Hshort as [Hshort|Hshort].
    + by rewrite (py_getitem_beyond _ _ Hshort) in Hsource.
    + by rewrite (py_getitem_beyond _ _ Hshort).
  - destruct (Z_le_gt_dec (len spath) k) as [Hle|Hgt].
    + rewrite (py_getitem_beyond _ _ Hle) in Hsource. by injection Hsource as <-.
    + pose proof (list_index_nonneg _ _ _ Hk) as Hnonneg.
      revert Hsource. unfold py_getitem, len in *. zcompare.
      destruct (spath !! Z.to_nat k) eqn:Hlookup; [done|].
      apply lookup_ge_None in Hlookup. lia.
Qed.

Lemma filter_songs_short_sources_witness :
  filter_songs (single_source "piano") [song_lopsided] true (init manifest_duo)
    = (Raise IndexError, init manifest_duo).
Proof.
  apply (filter_songs_short_sources (single_source "piano") song_lopsided []
           [JArr [JStr "lop_violin.wav"]] 1%Z (init manifest_duo));
    try reflexivity.
  left. vm_compute. discriminate.
Defined.

(** ** The loops of the accessors *)

Section RetrievalFacts.

Variable float_add : Q → Q → Q.
Variable float_div : Q → Z → Q.
Variable open_audio : string → result (list Q * Z).
Variable load_gt : string → result GT.

Lemma open_all_read_file dir fns audios sr :
  open_all open_audio dir fns audios sr =
    let? rs := result_map (read_file open_audio dir) fns in
    Ok (audios ++ map fst rs,
        match last_rate rs with Some sr' => Some sr' | None => sr end).
Proof.
  revert audios sr. induction fns as [|fn fns IH]; intros audios sr; simpl.
  - by rewrite app_nil_r.
  - unfold read_file at 1. destruct (joinpath dir fn) as [p|e]; [|done]. simpl.
    destruct (open_audio p) as [[audio sr']|e]; [|done]. simpl. rewrite IH.
    destruct (result_map (read_file open_audio dir) fns) as [rs|e]; [|done].
    simpl. rewrite <- app_assoc. simpl. do 2 f_equal.
    unfold last_rate. rewrite last_cons.
    by destruct (last rs) as [[w r]|].
Qed.

Lemma load_all_read_file dir fns gts :
  load_all load_gt dir fns gts =
    let? gts' := result_map (read_file load_gt dir) fns in Ok (gts ++ gts').
Proof.
  revert gts. induction fns as [|fn fns IH]; intros gts; simpl.
  - by rewrite app_nil_r.
  - unfold read_file at 1. destruct (joinpath dir fn) as [p|e]; [|done]. simpl.
    destruct (load_gt p) as [gt|e]; [|done]. simpl. rewrite IH.
    destruct (result_map (read_file load_gt dir) fns) as [gts'|e]; [|done].
    simpl. by rewrite <- app_assoc.
Qed.

Lemma result_map_app {A B} (f : A → result B) l1 l2 :
  result_map f (l1 ++ l2) =
    let? ys1 := result_map f l1 in
    let? ys2 := result_map f l2 in
    Ok (ys1 ++ ys2).
Proof.
  induction l1 as [|x l1 IH]; simpl.
  - by destruct (result_map f l2).
  - destruct (f x) as [y|e]; [|done]. simpl. rewrite IH.
    destruct (result_map f l1) as [ys1|e]; [|done]. simpl.
    by destruct (result_map f l2).
Qed.

Lemma result_map_length {A B} (f : A → result B) l ys :
  result_map f l = Ok ys → length ys = length l.
Proof.
  revert ys. induction l as [|x l IH]; intros ys; simpl.
  - by intros [= <-].
  - destruct (f x) as [y|e]; [|done]. simpl.
    destruct (result_map f l) as [ys'|e]; [|done]. simpl.
    intros [= <-]. simpl. by rewrite (IH ys').
Qed.

(** X5: [get_source] returns what the audio reader finds in each source
    path, one waveform per path and in the order of the paths (nothing is
    averaged), with the sampling rate of the last file; the first path that
    cannot be read decides the exception, and an empty list of paths leaves
    the rate unbound. *)
Theorem get_source_reads_each self idx item :
  py_getitem (paths self) idx = Ok item →
  get_source open_audio self idx =
    let? rs := result_map (read_file open_audio (install_dir self))
                          (json_iter (it_source item)) in
    match last_rate rs with
    | Some sr => Ok (map fst rs, sr)
    | None => Raise UnboundLocalError
    end.
Proof.
  intros Hitem. unfold get_source. rewrite Hitem. simpl.
  rewrite open_all_read_file.
  destruct (result_map _ _) as [rs|e]; [|done]. simpl.
  by destruct (last_rate rs).
Qed.

(** X6: [get_gts] decodes the ground-truth paths of the item one after the
    other and returns the records in the order of the paths; the first path
    that is not a string or cannot be decoded decides the exception. *)
Theorem get_gts_reads_each self idx item :
  py_getitem (paths self) idx = Ok item →
  get_gts load_gt self idx =
    result_map (read_file load_gt (install_dir self))
               (json_iter (it_gts item)).
Proof.
  intros Hitem. unfold get_gts. rewrite Hitem. simpl.
  rewrite load_all_read_file. by destruct (result_map _ _).
Qed.

(** X7: when the audio reader fails on one of the mix paths of an item after
    having read the paths before it, [get_mix] raises the reader's
    exception, whatever the remaining paths hold. *)
Theorem get_mix_reader_fails self idx item ps1 p ps2 rs1 e :
  py_getitem (paths self) idx = Ok item →
  it_mix item = ps1 ++ p :: ps2 →
  result_map (read_file open_audio (install_dir self)) (map JStr ps1)
    = Ok rs1 →
  open_audio (os_path_join (install_dir self) p) = Raise e →
  get_mix float_add float_div open_audio self idx = Raise e.
Proof.
  intros Hitem Hmix Hrs1 Hp. unfold get_mix. rewrite Hitem. simpl.
  rewrite open_all_read_file, Hmix, map_app, result_map_app, Hrs1. simpl.
  unfold read_file at 1. simpl. by rewrite Hp.
Qed.

Lemma zip_with_float_length (a : list Q) arrays :
  forallb (λ r', length r' =? length a)%nat arrays = true →
  length (foldl (zip_with float_add) a arrays) = length a.
Proof.
  revert a. induction arrays as [|b arrays IH]; intros a H; [done|].
  simpl in *. apply andb_true_iff in H as [Hb H].
  apply Nat.eqb_eq in Hb.
  assert (length (zip_with float_add a b) = length a) as Hlen
    by (rewrite length_zip_with; lia).
  rewrite IH; [done|]. rewrite Hlen. exact H.
Qed.

Lemma np_mean_axis0_length arrays m :
  np_mean_axis0 float_add float_div arrays = Ok m →
  Forall (λ w, length w = length m) arrays.
Proof.
  unfold np_mean_axis0. destruct arrays as [|a arrays]; [done|].
  destruct (rectangular (a :: arrays)) eqn:Hrect; [|done].
  intros [= <-]. simpl in Hrect.
  rewrite length_map, (zip_with_float_length _ _ Hrect).
  constructor; [done|]. apply Forall_forall. intros w Hw.
  rewrite forallb_forall in Hrect. apply Nat.eqb_eq, Hrect.
  by apply list_elem_of_In.
Qed.

(** X8: when [get_mix] returns, the item has at least one mix path, every
    one of them could be read, the rate returned is that of the last file,
    and the mix has as many samples as every file. *)
Theorem get_mix_returns self idx item mix sr :
  py_getitem (paths self) idx = Ok item →
  get_mix float_add float_div open_audio self idx = Ok (mix, sr) →
  ∃ rs,
    result_map (read_file open_audio (install_dir self))
               (map JStr (it_mix item)) = Ok rs ∧
    it_mix item ≠ [] ∧
    last_rate rs = Some sr ∧
    Forall (λ w, length w = length mix) (map fst rs).
Proof.
  intros Hitem. unfold get_mix. rewrite Hitem. simpl.
  rewrite open_all_read_file.
  destruct (result_map _ _) as [rs|e'] eqn:Hrs; [|done]. simpl.
  destruct (if (1 <? length (map fst rs))%nat then _ else _)
    as [m|e'] eqn:Hm; [|done]. simpl.
  destruct (last_rate rs) as [sr'|] eqn:Hlast; [|done]. simpl.
  intros [= <- <-]. exists rs. split; [done|]. split; [|split; [done|]].
  - intros Hnil. rewrite Hnil in Hrs. by injection Hrs as <-.
  - destruct (1 <? length (map fst rs))%nat eqn:Hmany.
    + by apply np_mean_axis0_length.
    + apply Nat.ltb_ge in Hmany.
      destruct (map fst rs) as [|w [|w' ws]]; simpl in *; [done| |lia].
      injection Hm as <-. by repeat constructor.
Qed.

(** X9: an item without mix paths, as [filter] builds it under
    [mixed=False], makes [get_mix] fail with an [IndexError]: for every
    index that designates an item added by such a call. *)
Theorem get_mix_unmixed c self idx item :
  mixed c = false →
  py_getitem (paths (filter c (with_paths self [])).2) idx = Ok item →
  get_mix float_add float_div open_audio (filter c (with_paths self [])).2 idx = Raise IndexError.
Proof.
  intros Hmixed Hitem.
  destruct (appends_filter c (λ it, it_mix it = [])) with (self := self)
    as (r & l & _ & Hl & H).
  { intros song source gts _. simpl. by rewrite Hmixed. }
  rewrite (H []) in *. simpl in *.
  apply py_getitem_Ok_elem in Hitem as Helem.
  rewrite Forall_forall in Hl. specialize (Hl item Helem).
  unfold get_mix. simpl. rewrite Hitem. simpl. by rewrite Hl.
Qed.

(** X10: an index outside the range of [paths] makes every accessor fail
    with an [IndexError]; on an object on which [filter] has not been called
    this is so for every index. *)
Theorem accessors_out_of_range self idx score_type truncate srcs :
  (idx < - len (paths self) ∨ len (paths self) ≤ idx)%Z →
  get_mix float_add float_div open_audio self idx = Raise IndexError ∧
  get_source open_audio self idx = Raise IndexError ∧
  get_gts load_gt self idx = Raise IndexError ∧
  get_item float_add float_div open_audio load_gt self idx = Raise IndexError ∧
  get_beats load_gt self idx = Raise IndexError ∧
  get_score load_gt self idx score_type truncate = Raise IndexError ∧
  get_audio float_add float_div open_audio self idx srcs = Raise IndexError.
Proof.
  intros Hidx.
  assert (py_getitem (paths self) idx = Raise IndexError) as H.
  { destruct Hidx; [by apply py_getitem_before | by apply py_getitem_beyond]. }
  unfold get_item, get_beats, get_score, get_audio, get_mix, get_source,
    get_gts.
  rewrite H. simpl. by destruct srcs.
Qed.

(** X11: a negative index counts from the end of [paths] in every
    accessor. *)
Theorem accessors_negative_index self idx score_type truncate srcs :
  (- len (paths self) ≤ idx < 0)%Z →
  get_mix float_add float_div open_audio self idx
    = get_mix float_add float_div open_audio self (idx + len (paths self)) ∧
  get_source open_audio self idx
    = get_source open_audio self (idx + len (paths self)) ∧
  get_gts load_gt self idx
    = get_gts load_gt self (idx + len (paths self)) ∧
  get_item float_add float_div open_audio load_gt self idx
    = get_item float_add float_div open_audio load_gt self (idx + len (paths self)) ∧
  get_beats load_gt self idx
    = get_beats load_gt self (idx + len (paths self)) ∧
  get_score load_gt self idx score_type truncate
    = get_score load_gt self (idx + len (paths self)) score_type truncate ∧
  get_audio float_add float_div open_audio self idx srcs
    = get_audio float_add float_div open_audio self (idx + len (paths self)) srcs.
Proof.
  intros Hidx. pose proof (py_getitem_negative (paths self) idx Hidx) as H.
  unfold get_item, get_beats, get_score, get_audio, get_mix, get_source,
    get_gts.
  rewrite H. by destruct srcs.
Qed.

(** X12: under [sources=True, all=True] the item of a song holds the whole
    of [sources.path]; when its first entry is itself a list of paths,
    [get_source] on the item just added (index [-1]) fails with a
    [TypeError], for a list cannot be joined to the install directory. *)
Theorem get_source_all_sources c song entry spath self :
  sources c = true →
  all c = true →
  song_flag c song true = true →
  song_sources_path song = Some (JArr entry :: spath) →
  it_source <$> last (paths (filter_song c song true self).2)
    = Some (JArr (JArr entry :: spath)) ∧
  get_source open_audio (filter_song c song true self).2 (-1)
    = Raise TypeError.
Proof.
  intros Hsrc Hall Hflag Hsp.
  unfold filter_song. rewrite Hflag. unfold bind, lift, song_source_gts.
  rewrite Hsp, Hsrc, Hall. simpl. split.
  - by rewrite last_snoc.
  - unfold get_source. simpl. by rewrite py_getitem_last.
Qed.

End RetrievalFacts.

Lemma get_source_reads_each_witness :
  get_source read_two dataset_two_sources 0
    = Ok ([[q 1; q 2; q 3]; [q 3; q 2; q 0]], 22050%Z).
Proof.
  rewrite (get_source_reads_each read_two dataset_two_sources 0%Z
             item_two_sources eq_refl).
  reflexivity.
Defined.

Lemma get_gts_reads_each_witness :
  get_gts decode_duo dataset_duo_scores 0 = Ok [gt_violin; gt_piano].
Proof.
  rewrite (get_gts_reads_each decode_duo dataset_duo_scores 0%Z
             {| it_mix := ["duo.wav"]; it_source := JArr [];
                it_gts := JArr [JStr "v.gt.gz"; JStr "p.gt.gz"] |} eq_refl).
  reflexivity.
Defined.

Lemma get_mix_reader_fails_witness :
  get_mix Qplus exact_div read_left_only dataset_stereo 1 = Raise (IOError "/data/right.wav").
Proof.
  apply (get_mix_reader_fails Qplus exact_div read_left_only dataset_stereo 1%Z
           {| it_mix := ["left.wav"; "right.wav"]; it_source := JArr [];
              it_gts := JArr [] |}
           ["left.wav"] "right.wav" [] [([q 1; q 2; q 3], 44100%Z)]);
    reflexivity.
Defined.

Lemma get_mix_returns_witness :
  ∃ rs,
    result_map (read_file read_two "/data") [JStr "left.wav"; JStr "right.wav"]
      = Ok rs ∧
    ["left.wav"; "right.wav"] ≠ [] ∧
    last_rate rs = Some 22050%Z ∧
    Forall (λ w, length w = 3%nat) (map fst rs).
Proof.
  apply (get_mix_returns Qplus exact_div read_two dataset_stereo 1%Z
           {| it_mix := ["left.wav"; "right.wav"]; it_source := JArr [];
              it_gts := JArr [] |}
           (mean2 Qplus exact_div [q 1; q 2; q 3] [q 3; q 2; q 0]) 22050%Z);
    reflexivity.
Defined.

Lemma get_mix_unmixed_witness :
  get_mix Qplus exact_div read_any (filter unmixed (with_paths (init manifest_one) [])).2 0
    = Raise IndexError.
Proof.
  apply (get_mix_unmixed Qplus exact_div read_any unmixed (init manifest_one) 0%Z
           {| it_mix := []; it_source := JArr [];
              it_gts := JArr [JStr "a.gt.gz"] |});
    reflexivity.
Defined.

Lemma accessors_out_of_range_witness :
  get_mix Qplus exact_div read_any (init manifest_one) 0 = Raise IndexError ∧
  get_source read_any (init manifest_one) 0 = Raise IndexError ∧
  get_gts decode_ragged (init manifest_one) 0 = Raise IndexError ∧
  get_item Qplus exact_div read_any decode_ragged (init manifest_one) 0 = Raise IndexError ∧
  get_beats decode_ragged (init manifest_one) 0 = Raise IndexError ∧
  get_score decode_ragged (init manifest_one) 0 "non_aligned" false
    = Raise IndexError ∧
  get_audio Qplus exact_div read_any (init manifest_one) 0 None = Raise IndexError.
Proof.
  apply (accessors_out_of_range Qplus exact_div read_any decode_ragged (init manifest_one)
           0%Z "non_aligned" false None).
  right. vm_compute. discriminate.
Defined.

Lemma accessors_negative_index_witness :
  get_mix Qplus exact_div read_two dataset_stereo (-1) = get_mix Qplus exact_div read_two dataset_stereo 1.
Proof.
  apply (accessors_negative_index Qplus exact_div read_two decode_ragged dataset_stereo
           (-1)%Z "non_aligned" false None).
  split; vm_compute; [discriminate | reflexivity].
Defined.

Lemma get_source_all_sources_witness :
  it_source <$> last (paths dataset_all_sources)
    = Some (JArr [JArr [JStr "duo_violin.wav"]; JArr [JStr "duo_piano.wav"]]) ∧
  get_source read_any dataset_all_sources (-1) = Raise TypeError.
Proof.
  apply (get_source_all_sources read_any all_sources song_duo
           [JStr "duo_violin.wav"] [JArr [JStr "duo_piano.wav"]]
           (init manifest_duo)); reflexivity.
Defined.

(** ** [truncate_score], continued *)

(** Case analysis on the comparisons of natural numbers of the goal. *)
Ltac ncompare :=
  repeat match goal with
    | |- context [(?a <? ?b)%nat] => destruct (Nat.ltb_spec a b); try lia
    | |- context [(?a =? ?b)%nat] => destruct (Nat.eqb_spec a b); try lia
    end; simpl.

Lemma gt_getitem_score_key gt t :
  gt_getitem gt (score_key t) = Ok (gt_get gt t).
Proof. by destruct t. Qed.

Lemma length_to_truncate_bounds gt :
  (length_to_truncate gt ≤ length (pitches (non_aligned gt)))%nat ∧
  ∀ t, (0 < length (onsets (gt_get gt t)))%nat →
       (length_to_truncate gt ≤ length (onsets (gt_get gt t)))%nat ∧
       (length_to_truncate gt ≤ length (pitches (gt_get gt t)))%nat.
Proof.
  unfold length_to_truncate, truncate_length_step, score_types. simpl.
  split; [ncompare; lia|]. intros [] Ht; simpl in *; ncompare; lia.
Qed.

(** X13: after [truncate_score], every score type that had onsets has as
    many pitches as onsets, namely the length that the lists were cut to, so
    that [find_bach10_errors] finds nothing to report there. *)
Theorem truncate_score_aligns gt t :
  (0 < length (onsets (gt_get gt t)))%nat →
  length (pitches (gt_get (truncate_score gt) t)) = length_to_truncate gt ∧
  length (onsets (gt_get (truncate_score gt) t)) = length_to_truncate gt ∧
  find_bach10_errors (truncate_score gt) (score_key t) = Ok false.
Proof.
  intros Ht. destruct (length_to_truncate_bounds gt) as [_ Hbounds].
  destruct (Hbounds t Ht) as [Ho Hp].
  assert (length (pitches (gt_get (truncate_score gt) t))
            = length_to_truncate gt) as Hpitches
    by (rewrite truncate_score_entries; simpl; rewrite length_take; lia).
  assert (length (onsets (gt_get (truncate_score gt) t))
            = length_to_truncate gt) as Honsets
    by (rewrite truncate_score_entries; simpl; rewrite length_take; lia).
  repeat split; [done..|].
  unfold find_bach10_errors. rewrite gt_getitem_score_key. simpl.
  unfold len. rewrite Hpitches, Honsets. by rewrite Z.eqb_refl.
Qed.

Lemma truncate_score_aligns_witness :
  length (pitches (gt_get (truncate_score gt_short_pitches) BroadAlignment))
    = 2%nat ∧
  length (onsets (gt_get (truncate_score gt_short_pitches) BroadAlignment))
    = 2%nat ∧
  find_bach10_errors (truncate_score gt_short_pitches) "broad_alignment"
    = Ok false.
Proof.
  apply (truncate_score_aligns gt_short_pitches BroadAlignment).
  vm_compute. lia.
Defined.

Lemma truncate_score_record gt :
  truncate_score gt =
    {| non_aligned := truncated (length_to_truncate gt) (non_aligned gt);
       broad_alignment := truncated (length_to_truncate gt) (broad_alignment gt);
       precise_alignment :=
         truncated (length_to_truncate gt) (precise_alignment gt);
       gt_instrument := gt_instrument gt;
       beats_non_aligned := beats_non_aligned gt |}.
Proof.
  unfold truncate_score. generalize (length_to_truncate gt). intros n.
  by destruct gt.
Qed.

Lemma truncate_length_step_fixed gt gt' n t :
  gt_get gt' t = truncated n (gt_get gt t) →
  ((0 < length (onsets (gt_get gt t)))%nat →
   (n ≤ length (onsets (gt_get gt t)))%nat ∧
   (n ≤ length (pitches (gt_get gt t)))%nat) →
  truncate_length_step gt' n t = n.
Proof.
  intros Hget Hbound. unfold truncate_length_step. rewrite Hget. simpl.
  rewrite !length_take.
  destruct (Nat.ltb_spec 0 (n `min` length (onsets (gt_get gt t))));
    [|done].
  destruct Hbound as [Ho Hp]; [lia|].
  rewrite (Nat.min_l n _ Ho), (Nat.min_l n _ Hp). by rewrite !Nat.min_id.
Qed.

Lemma length_to_truncate_again gt :
  length_to_truncate (truncate_score gt) = length_to_truncate gt.
Proof.
  destruct (length_to_truncate_bounds gt) as [Hna Hbounds].
  unfold length_to_truncate at 1. unfold score_types. cbn [foldl].
  assert (∀ t, gt_get (truncate_score gt) t
               = truncated (length_to_truncate gt) (gt_get gt t)) as Hget
    by apply truncate_score_entries.
  change (non_aligned (truncate_score gt))
    with (gt_get (truncate_score gt) NonAligned).
  rewrite Hget. simpl. rewrite length_take, (Nat.min_l _ _ Hna).
  by rewrite !(truncate_length_step_fixed gt _ _ _ (Hget _) (Hbounds _)).
Qed.

(** X14: [truncate_score] is idempotent: a record that has been truncated is
    left as it is by a second truncation. *)
Theorem truncate_score_idempotent gt :
  truncate_score (truncate_score gt) = truncate_score gt.
Proof.
  rewrite (truncate_score_record (truncate_score gt)).
  rewrite length_to_truncate_again.
  rewrite (truncate_score_record gt) at 2.
  rewrite (truncate_score_record gt) at 1 2 3 4 5. simpl.
  unfold truncated. simpl. rewrite !take_take, !Nat.min_id. done.
Qed.

(** ** The reconciliation of [get_score], continued *)

Lemma replicate_app_sentinel a b :
  replicate a sentinel ++ replicate b sentinel = replicate (a + b) sentinel.
Proof. by rewrite replicate_add. Qed.

Lemma pad_eq (l : list Q) a k :
  a = k → l ++ replicate a sentinel = l ++ replicate k sentinel.
Proof. by intros ->. Qed.

Lemma pad_eq0 (l : list Q) k : (0 = k)%nat → l = l ++ replicate k sentinel.
Proof. intros <-. by rewrite app_nil_r. Qed.

(** One [if] of the goal whose test holds no further [if]. *)
Ltac split_if :=
  match goal with
  | |- context [if ?c then _ else _] =>
      lazymatch c with
      | context [if _ then _ else _] => fail
      | _ => destruct c eqn:?
      end
  end.

Ltac to_props :=
  repeat match goal with
    | H : (_ <? _)%Z = true |- _ => apply Z.ltb_lt in H
    | H : (_ <? _)%Z = false |- _ => apply Z.ltb_ge in H
    | H : (_ =? _)%Z = true |- _ => apply Z.eqb_eq in H
    | H : (_ =? _)%Z = false |- _ => apply Z.eqb_neq in H
    | H : (_ <? _)%nat = true |- _ => apply Nat.ltb_lt in H
    | H : (_ <? _)%nat = false |- _ => apply Nat.ltb_ge in H
    | H : (_ =? _)%nat = true |- _ => apply Nat.eqb_eq in H
    | H : (_ =? _)%nat = false |- _ => apply Nat.eqb_neq in H
    end.

Ltac nil_if_empty l :=
  try (assert (l = []) as -> by (apply nil_length_inv; lia)).

Ltac solve_pad :=
  rewrite <- ?app_assoc, ?replicate_app_sentinel; cbn [length] in *;
  first [ apply pad_eq0; lia
        | apply pad_eq; lia
        | apply (pad_eq []); lia ].

Lemma reconcile_closed s :
  reconcile s =
    {| pitches := pad (reconciled_length s) (pitches s);
       onsets := pad (reconciled_length s) (onsets s);
       offsets := pad (offsets_length s) (offsets s);
       velocities := pad (reconciled_length s) (velocities s) |}.
Proof.
  destruct s as [p o f v].
  unfold reconcile, pad, reconciled_length, offsets_length, filled_onsets,
    full_like, sentinels, len.
  cbn [pitches onsets offsets velocities]. cbv zeta.
  repeat split_if; to_props.
  all: rewrite ?length_app, ?length_replicate in *.
  all: try (exfalso; lia).
  all: nil_if_empty o; nil_if_empty f; nil_if_empty v.
  all: f_equal; solve_pad.
Qed.

(** X15: the reconciliation only ever adds sentinels at the end of a
    column: the pitches, the onsets and the velocities come out as the given
    lists followed by sentinels up to one common length, the largest of the
    number of pitches, the number of onsets and the number of velocities
    plus the number of onsets that were missing; the offsets come out as the
    given list followed by sentinels up to a length of their own. *)
Theorem reconcile_pads s :
  reconcile s =
    {| pitches := pad (reconciled_length s) (pitches s);
       onsets := pad (reconciled_length s) (onsets s);
       offsets := pad (offsets_length s) (offsets s);
       velocities := pad (reconciled_length s) (velocities s) |}.
Proof. apply reconcile_closed. Qed.

Lemma reconciled_length_bounds s :
  (length (pitches s) ≤ reconciled_length s)%nat ∧
  (length (onsets s) ≤ reconciled_length s)%nat ∧
  (length (velocities s) ≤ reconciled_length s)%nat.
Proof.
  unfold reconciled_length, filled_onsets.
  destruct (Nat.eqb_spec (length (onsets s)) 0); lia.
Qed.

Lemma length_pad n l : (length l ≤ n)%nat → length (pad n l) = n.
Proof. intros H. unfold pad. rewrite length_app, length_replicate. lia. Qed.

Lemma rectangular_six_rows i gt s :
  rectangular (six_rows i gt s) = offsets_fit s.
Proof.
  destruct (reconciled_length_bounds s) as (Hp & Ho & Hv).
  unfold six_rows, rectangular. cbv zeta. rewrite reconcile_closed.
  cbn [pitches onsets offsets velocities forallb]. unfold full_like.
  rewrite !length_replicate, (length_pad _ (pitches s) Hp),
    (length_pad _ (onsets s) Ho), (length_pad _ (velocities s) Hv).
  rewrite !Nat.eqb_refl. simpl. rewrite andb_true_r.
  unfold pad. rewrite length_app, length_replicate.
  unfold offsets_fit, offsets_length, reconciled_length, filled_onsets.
  generalize (length (pitches s)) (length (onsets s)) (length (offsets s))
    (length (velocities s)).
  intros P O F V.
  destruct (Nat.eqb_spec O 0).
  - destruct (Nat.ltb_spec P P); [lia|].
    destruct (Nat.eqb_spec (F + (P - P)) 0), (Nat.eqb_spec F 0),
      (Nat.eqb_spec F P); simpl; apply Nat.eqb_eq || apply Nat.eqb_neq; lia.
  - destruct (Nat.ltb_spec O P), (Nat.eqb_spec (F + (P - O)) 0),
      (Nat.eqb_spec F 0), (Nat.eqb_spec F O); simpl;
      apply Nat.eqb_eq || apply Nat.eqb_neq; lia.
Qed.

Lemma score_block_rows i gt score_type s :
  gt_getitem gt score_type = Ok s →
  score_block i gt score_type false =
    if offsets_fit s then Ok (six_rows i gt s) else Raise ValueError.
Proof.
  intros Hs. unfold score_block. simpl. rewrite Hs. simpl.
  unfold np_array2d. change [_; _; _; _; _; _] with (six_rows i gt s).
  by rewrite rectangular_six_rows.
Qed.

(** X16: without truncation, the block of a ground truth is a matrix
    exactly when the offsets fit: when there are more pitches than (filled)
    onsets, the offsets must be as many as the onsets; otherwise they must be
    absent or as many as the onsets. In every other case the six rows have
    different lengths and [ValueError] is raised. *)
Theorem score_block_offsets i gt score_type s :
  gt_getitem gt score_type = Ok s →
  score_block i gt score_type false =
    if offsets_fit s then Ok (six_rows i gt s) else Raise ValueError.
Proof. apply score_block_rows. Qed.

Lemma score_block_offsets_witness :
  score_block 0 gt_ragged "non_aligned" false = Raise ValueError ∧
  score_block 0 gt_violin "non_aligned" false
    = Ok [[q 67; q 69]; [q 1; q 3]; [q 2; q 4]; [q 80; q 80];
          [q 40; q 40]; [q 0; q 0]].
Proof.
  split.
  - rewrite (score_block_offsets 0 gt_ragged "non_aligned" score_ragged eq_refl).
    reflexivity.
  - rewrite (score_block_offsets 0 gt_violin "non_aligned" _ eq_refl).
    reflexivity.
Defined.

(** X17: with [truncate=True] the block of a ground truth is the block that
    the path without truncation builds from the truncated record: the
    detection of [find_bach10_errors] has no effect on the result, whatever
    the score type asked for. *)
Theorem score_block_truncate i gt score_type :
  score_block i gt score_type true
    = score_block i (truncate_score gt) score_type false.
Proof.
  unfold score_block, find_bach10_errors, gt_getitem.
  repeat case_decide; done.
Qed.

(** ** The merge of the blocks *)

Lemma insert_key_perm x l : Permutation (insert_key x l) (x :: l).
Proof.
  induction l as [|y l IH]; simpl; [done|].
  destruct (Qle_bool x.1 y.1); [done|].
  rewrite IH. apply perm_swap.
Qed.

Lemma sort_keys_perm l : Permutation (sort_keys l) l.
Proof.
  induction l as [|x l IH]; simpl; [done|].
  by rewrite insert_key_perm, IH.
Qed.

Lemma argsort_perm a : Permutation (argsort a) (seq 0 (length a)).
Proof.
  unfold argsort. rewrite sort_keys_perm.
  change (map snd (zip a (seq 0 (length a))))
    with ((zip a (seq 0 (length a))).*2).
  rewrite snd_zip; [done|]. by rewrite length_seq.
Qed.

Lemma rows_at_total mat perm :
  Forall (λ i, (i < length mat)%nat) perm →
  rows_at mat perm = Ok (map (λ i, nth i mat []) perm).
Proof.
  induction 1 as [|i perm Hi Hperm IH]; simpl; [done|].
  destruct (lookup_lt_is_Some_2 mat i Hi) as [row Hrow].
  rewrite (py_getitem_lookup _ _ _ Hrow), IH. simpl.
  by rewrite (nth_lookup_Some _ _ _ _ Hrow).
Qed.

Lemma map_nth_seq {A} (l : list A) d :
  map (λ i, nth i l d) (seq 0 (length l)) = l.
Proof.
  induction l as [|x l IH]; simpl; [done|].
  f_equal. rewrite <- seq_shift, map_map. exact IH.
Qed.

Lemma sort_rows_perm rows : Permutation (sort_rows rows) rows.
Proof.
  unfold sort_rows. rewrite argsort_perm. unfold column.
  by rewrite length_map, map_nth_seq.
Qed.

Lemma rows_at_argsort rows :
  rows_at rows (argsort (column 1 rows)) = Ok (sort_rows rows).
Proof.
  apply rows_at_total. apply Forall_forall. intros i Hi.
  rewrite argsort_perm in Hi. apply list_elem_of_In, in_seq in Hi.
  unfold column in Hi. rewrite length_map in Hi. lia.
Qed.


Lemma shaped_zip_app k a b (A B : matrix) :
  shaped k a A → shaped k b B → shaped k (a + b) (zip_with app A B).
Proof.
  intros [HkA HA] [HkB HB]. split.
  - rewrite length_zip_with. lia.
  - clear HkA HkB. revert B HB.
    induction HA as [|ra A Hra HA IH]; intros B HB; [constructor|].
    destruct HB as [|rb B Hrb HB]; simpl; constructor.
    + rewrite length_app. lia.
    + by apply IH.
Qed.

Lemma transpose_rows k w (A : matrix) :
  shaped (S k) w A →
  transpose A = map (λ j, map (λ row, nth j row 0%Q) A) (seq 0 w).
Proof.
  intros [Hk HA]. destruct A as [|r A]; [done|]. simpl.
  by rewrite (Forall_inv HA).
Qed.

Lemma column_zip_app_l a (A B : matrix) j :
  length A = length B → Forall (λ r, length r = a) A → (j < a)%nat →
  map (λ row, nth j row 0%Q) (zip_with app A B)
    = map (λ row, nth j row 0%Q) A.
Proof.
  intros Hlen HA Hj. revert B Hlen.
  induction HA as [|ra A Hra HA IH]; intros [|rb B] Hlen; try done.
  simpl. rewrite app_nth1 by lia. f_equal. apply IH. by injection Hlen.
Qed.

Lemma column_zip_app_r a (A B : matrix) j :
  length A = length B → Forall (λ r, length r = a) A →
  map (λ row, nth (a + j) row 0%Q) (zip_with app A B)
    = map (λ row, nth j row 0%Q) B.
Proof.
  intros Hlen HA. revert B Hlen.
  induction HA as [|ra A Hra HA IH]; intros [|rb B] Hlen; try done.
  simpl. rewrite app_nth2 by lia.
  replace (a + j - length ra)%nat with j by lia.
  f_equal. apply IH. by injection Hlen.
Qed.

Lemma transpose_zip_app k a b (A B : matrix) :
  shaped (S k) a A → shaped (S k) b B →
  transpose (zip_with app A B) = transpose A ++ transpose B.
Proof.
  intros HA HB.
  rewrite (transpose_rows k (a + b) _ (shaped_zip_app _ _ _ _ _ HA HB)).
  rewrite (transpose_rows k a A HA), (transpose_rows k b B HB).
  destruct HA as [HkA HA], HB as [HkB HB].
  rewrite seq_app, map_app. f_equal.
  - apply map_ext_in. intros j Hj. apply in_seq in Hj.
    apply (column_zip_app_l a); [lia | done | lia].
  - simpl. rewrite <- (Nat.add_0_r a) at 1. rewrite <- fmap_add_seq.
    change (map ?f (Nat.add a <$> ?l)) with (map f (map (Nat.add a) l)).
    rewrite map_map. apply map_ext. intros j.
    apply (column_zip_app_r a); [lia | done].
Qed.

Lemma transpose_foldl_zip_app k (Bs : list matrix) : ∀ a (A : matrix),
  shaped (S k) a A →
  Forall (λ B, ∃ b, shaped (S k) b B) Bs →
  transpose (foldl (zip_with app) A Bs)
    = transpose A ++ concat (map transpose Bs).
Proof.
  induction Bs as [|B Bs IH]; intros a A HA HBs; simpl.
  - by rewrite app_nil_r.
  - apply Forall_cons in HBs as [[b HB] HBs].
    rewrite (IH (a + b)%nat); [|by apply shaped_zip_app | done].
    by rewrite (transpose_zip_app k a b), app_assoc.
Qed.

Lemma six_rows_shaped i gt s :
  offsets_fit s = true → shaped 6 (reconciled_length s) (six_rows i gt s).
Proof.
  intros Hfit. rewrite <- (rectangular_six_rows i gt) in Hfit.
  destruct (reconciled_length_bounds s) as (Hp & _).
  split; [done|]. unfold six_rows, rectangular in *. cbv zeta in *.
  cbn [forallb] in Hfit. rewrite !andb_true_iff, !Nat.eqb_eq in Hfit.
  destruct Hfit as (H1 & H2 & H3 & H4 & H5 & _).
  assert (length (pitches (reconcile s)) = reconciled_length s) as Hn
    by (rewrite reconcile_closed; simpl; by apply length_pad).
  repeat constructor; congruence.
Qed.

Lemma transpose_six_rows i gt s :
  offsets_fit s = true →
  length (transpose (six_rows i gt s)) = reconciled_length s ∧
  Forall (λ row, length row = 6%nat) (transpose (six_rows i gt s)).
Proof.
  intros Hfit. pose proof (six_rows_shaped i gt s Hfit) as Hshape.
  rewrite (transpose_rows 5 _ _ Hshape). split.
  - by rewrite length_map, length_seq.
  - apply Forall_forall. intros row Hrow.
    apply list_elem_of_In, in_map_iff in Hrow as (j & <- & _).
    by rewrite length_map.
Qed.

(** The loop over the ground truths, without truncation. *)
Lemma score_blocks_fit t gts : ∀ i mat,
  score_blocks i gts (score_key t) false mat =
    if forallb (λ gt, offsets_fit (gt_get gt t)) gts
    then Ok (mat ++ imap (λ j gt, six_rows (i + j) gt (gt_get gt t)) gts)
    else Raise ValueError.
Proof.
  induction gts as [|gt gts IH]; intros i mat; simpl.
  - by rewrite app_nil_r.
  - rewrite (score_block_rows i gt _ _ (gt_getitem_score_key gt t)).
    destruct (offsets_fit (gt_get gt t)); [|done]. simpl. rewrite IH.
    destruct (forallb _ gts); [|done].
    rewrite <- app_assoc. simpl. rewrite Nat.add_0_r. do 3 f_equal.
    apply imap_ext. intros j gt' _. simpl. f_equal. lia.
Qed.

Lemma np_concatenate_six (b : matrix) (bs : list matrix) :
  Forall (λ B, ∃ w, shaped 6 w B) (b :: bs) →
  (if (1 <? length (b :: bs))%nat then np_concatenate_axis1 (b :: bs)
   else py_getitem (b :: bs) 0%Z)
    = Ok (foldl (zip_with app) b bs).
Proof.
  intros Hshape. apply Forall_cons in Hshape as [[w [Hb _]] Hbs].
  destruct bs as [|b' bs]; [done|].
  change (1 <? length (b :: b' :: bs))%nat with true. cbv iota.
  unfold np_concatenate_axis1.
  replace (forallb _ (b' :: bs)) with true; [done|].
  symmetry. apply forallb_forall. intros B HB. apply Nat.eqb_eq.
  rewrite Forall_forall in Hbs.
  destruct (Hbs B) as [w' [HB' _]]; [by apply list_elem_of_In|]. congruence.
Qed.

Lemma merge_blocks_shaped blocks :
  Forall (λ B, ∃ w, shaped 6 w B) blocks →
  merge_blocks blocks =
    match blocks with
    | [] => Raise IndexError
    | _ => Ok (sort_rows (concat (map transpose blocks)))
    end.
Proof.
  intros Hshape. destruct blocks as [|b bs]; [done|].
  unfold merge_blocks. rewrite (np_concatenate_six b bs Hshape). simpl.
  apply Forall_cons in Hshape as [[w Hb] Hbs].
  rewrite (transpose_foldl_zip_app 5 bs w b Hb Hbs).
  apply rows_at_argsort.
Qed.

Lemma six_rows_all_shaped t gts : ∀ i,
  forallb (λ gt, offsets_fit (gt_get gt t)) gts = true →
  Forall (λ B, ∃ w, shaped 6 w B)
         (imap (λ j gt, six_rows (i + j) gt (gt_get gt t)) gts).
Proof.
  induction gts as [|gt gts IH]; intros i Hfit; [constructor|].
  simpl in Hfit. apply andb_true_iff in Hfit as [Hgt Hfit].
  rewrite imap_cons. constructor.
  - eexists. by apply six_rows_shaped.
  - erewrite imap_ext; [apply (IH (S i) Hfit)|].
    intros j gt' _. simpl. f_equal. lia.
Qed.

Lemma notes_rows_from t gts : ∀ i,
  forallb (λ gt, offsets_fit (gt_get gt t)) gts = true →
  Forall (λ row, length row = 6%nat)
         (concat (imap (λ j gt, transpose (six_rows (i + j) gt (gt_get gt t)))
                       gts)) ∧
  length (concat (imap (λ j gt, transpose (six_rows (i + j) gt (gt_get gt t)))
                       gts))
    = sum_list (map (λ gt, reconciled_length (gt_get gt t)) gts).
Proof.
  induction gts as [|gt gts IH]; intros i Hfit; [by split|].
  simpl in Hfit. apply andb_true_iff in Hfit as [Hgt Hfit].
  rewrite imap_cons.
  rewrite (imap_ext _
             (λ j gt', transpose (six_rows (S i + j) gt' (gt_get gt' t))))
    by (intros j gt' _; unfold compose; do 2 f_equal; lia).
  destruct (transpose_six_rows (i + 0) gt _ Hgt) as [Hlen Hrows].
  destruct (IH (S i) Hfit) as [IHrows IHlen].
  cbn [concat map sum_list sum_list_with]. split.
  - by apply Forall_app.
  - by rewrite length_app, Hlen, IHlen.
Qed.

Lemma notes_rows t gts :
  forallb (λ gt, offsets_fit (gt_get gt t)) gts = true →
  Forall (λ row, length row = 6%nat) (notes t gts) ∧
  length (notes t gts)
    = sum_list (map (λ gt, reconciled_length (gt_get gt t)) gts).
Proof. apply (notes_rows_from t gts 0). Qed.

(** The outcome of [get_score] with the [argsort] above. *)
Lemma get_score_closed load_gt self idx t gts :
  get_gts load_gt self idx = Ok gts →
  get_score load_gt self idx (score_key t) false =
    if forallb (λ gt, offsets_fit (gt_get gt t)) gts
    then match gts with
         | [] => Raise IndexError
         | _ => Ok (sort_rows (notes t gts))
         end
    else Raise ValueError.
Proof.
  intros Hgts. unfold get_score. rewrite Hgts. simpl.
  rewrite score_blocks_fit.
  destruct (forallb _ gts) eqn:Hfit; [|done]. simpl.
  rewrite merge_blocks_shaped by (by apply (six_rows_all_shaped t gts 0)).
  destruct gts as [|gt gts]; [done|]. rewrite imap_cons.
  do 2 f_equal. unfold notes. rewrite imap_cons. simpl. f_equal.
  change (map transpose ?l) with (transpose <$> l). by rewrite fmap_imap.
Qed.

Lemma sort_rows_sorted rows : Sorted Qle (column 1 (sort_rows rows)).
Proof.
  unfold sort_rows, column at 1. rewrite map_map.
  pose proof (argsort_sorted (column 1 rows)) as Hsorted.
  erewrite map_ext; [exact Hsorted|].
  intros i. simpl. unfold column.
  by rewrite <- (map_nth (λ row : list Q, nth 1 row 0%Q) rows [] i).
Qed.

(** X18: without truncation, [get_score] on an item whose ground truths
    could be decoded fails with a [ValueError] as soon as the offsets of one
    of them do not fit, fails with an [IndexError] when the item has no
    ground truth at all, and otherwise returns a matrix that holds the notes
    of all ground truths, in some order in which the onsets ascend (the
    order among notes of equal onset is left open). *)
Theorem get_score_outcome load_gt self idx t gts :
  get_gts load_gt self idx = Ok gts →
  if forallb (λ gt, offsets_fit (gt_get gt t)) gts
  then match gts with
       | [] =>
           get_score load_gt self idx (score_key t) false = Raise IndexError
       | _ =>
           ∃ m, get_score load_gt self idx (score_key t) false = Ok m ∧
                Permutation m (notes t gts) ∧
                Sorted Qle (column 1 m)
       end
  else get_score load_gt self idx (score_key t) false = Raise ValueError.
Proof.
  intros Hgts. rewrite (get_score_closed _ _ _ _ _ Hgts).
  destruct (forallb _ gts); [|done]. destruct gts as [|gt gts]; [done|].
  eexists. split; [done|]. split.
  - apply sort_rows_perm.
  - apply sort_rows_sorted.
Qed.

Lemma get_score_outcome_witness :
  (∃ m, get_score decode_duo dataset_duo_scores 0 "non_aligned" false = Ok m ∧
        Permutation m (notes NonAligned [gt_violin; gt_piano]) ∧
        Sorted Qle (column 1 m)) ∧
  get_score decode_ragged dataset_scenario 0 "non_aligned" false
    = Raise ValueError.
Proof.
  split.
  - exact (get_score_outcome decode_duo dataset_duo_scores 0%Z NonAligned
             [gt_violin; gt_piano] eq_refl).
  - exact (get_score_outcome decode_ragged dataset_scenario 0%Z NonAligned
             [gt_ragged] eq_refl).
Defined.

(** X19: the matrix that [get_score] returns without truncation holds
    exactly the notes of the ground truths of the item, none lost and none
    added: it is a rearrangement of the rows built source after source, each
    row has six entries, and the number of rows is the sum over the ground
    truths of the length their columns were padded to. *)
Theorem get_score_rows load_gt self idx t gts m :
  get_gts load_gt self idx = Ok gts →
  get_score load_gt self idx (score_key t) false = Ok m →
  Permutation m (notes t gts) ∧
  Forall (λ row, length row = 6%nat) m ∧
  length m = sum_list (map (λ gt, reconciled_length (gt_get gt t)) gts).
Proof.
  intros Hgts. rewrite (get_score_closed _ _ _ _ _ Hgts).
  destruct (forallb _ gts) eqn:Hfit; [|done].
  destruct gts as [|gt gts]; [done|]. intros [= <-].
  destruct (notes_rows t _ Hfit) as [Hrows Hlen].
  pose proof (sort_rows_perm (notes t (gt :: gts))) as Hperm.
  split; [done|]. split.
  - by rewrite Hperm.
  - by rewrite Hperm.
Qed.

Lemma get_score_rows_witness :
  ∃ m, get_score decode_duo dataset_duo_scores 0 "non_aligned" false = Ok m ∧
       Permutation m (notes NonAligned [gt_violin; gt_piano]) ∧
       Forall (λ row, length row = 6%nat) m ∧
       length m = 4%nat.
Proof.
  eexists. split; [reflexivity|].
  apply (get_score_rows decode_duo dataset_duo_scores 0%Z NonAligned
           [gt_violin; gt_piano]); reflexivity.
Defined.

Section ScoreEdges.

Variable float_add : Q → Q → Q.
Variable float_div : Q → Z → Q.
Variable open_audio : string → result (list Q * Z).
Variable load_gt : string → result GT.

(** X20: on an item without ground-truth paths, [get_score] fails with an
    [IndexError] (there is no first block to take) for every score type,
    with or without truncation, while [get_beats] returns an array without
    rows. *)
Theorem get_score_no_ground_truth self idx item score_type truncate :
  py_getitem (paths self) idx = Ok item →
  it_gts item = JArr [] →
  get_score load_gt self idx score_type truncate = Raise IndexError ∧
  get_beats load_gt self idx = Ok [].
Proof.
  intros Hitem Hgts. unfold get_score, get_beats, get_gts.
  rewrite Hitem. simpl. by rewrite Hgts.
Qed.

(** X21: a score type that is not a key of the ground-truth dictionary makes
    [get_score] fail with a [KeyError] on the first ground truth, with or
    without truncation. *)
Theorem get_score_unknown_score_type self idx gt gts score_type truncate :
  get_gts load_gt self idx = Ok (gt :: gts) →
  score_type ∉ ["non_aligned"; "broad_alignment"; "precise_alignment";
                "instrument"; "beats_non_aligned"] →
  get_score load_gt self idx score_type truncate = Raise KeyError.
Proof.
  intros Hgts Hkey.
  assert (∀ gt', gt_getitem gt' score_type = Raise KeyError) as Hget.
  { intros gt'. unfold gt_getitem, score_key.
    repeat case_decide; try done; subst; exfalso; apply Hkey; set_solver. }
  unfold get_score. rewrite Hgts. simpl.
  unfold score_block, find_bach10_errors.
  destruct truncate; simpl; by rewrite !Hget.
Qed.

(** X22: [get_audio] with a [sources] argument returns the mean of all the
    sources of the item, whichever positions the argument lists: for an item
    with two sources of equal length, the elementwise mean of the two as
    numpy takes it, each pair of samples float-added and the sum
    float-divided by two, whatever the rounding of these operations is. *)
Theorem get_audio_ignores_selection self idx w1 w2 sr srcs :
  get_source open_audio self idx = Ok ([w1; w2], sr) →
  length w1 = length w2 →
  get_audio float_add float_div open_audio self idx (Some srcs)
    = Ok (mean2 float_add float_div w1 w2, sr).
Proof.
  intros Hsrc Hlen. unfold get_audio. rewrite Hsrc. simpl.
  unfold np_mean_axis0. simpl. rewrite Hlen, Nat.eqb_refl. simpl.
  do 2 f_equal. apply mean_of_two.
Qed.

End ScoreEdges.

Lemma get_score_no_ground_truth_witness :
  get_score decode_ragged dataset_stereo 0 "non_aligned" true
    = Raise IndexError ∧
  get_beats decode_ragged dataset_stereo 0 = Ok [].
Proof.
  apply (get_score_no_ground_truth decode_ragged dataset_stereo 0%Z
           {| it_mix := ["left.wav"]; it_source := JArr [];
              it_gts := JArr [] |}); reflexivity.
Defined.

Lemma get_score_unknown_score_type_witness :
  get_score decode_ragged dataset_scenario 0 "aligned" false = Raise KeyError.
Proof.
  apply (get_score_unknown_score_type decode_ragged dataset_scenario 0%Z
           gt_ragged []); [reflexivity|].
  intros H. repeat (apply elem_of_cons in H as [H|H]; [discriminate H|]).
  by apply elem_of_nil in H.
Defined.

Lemma get_audio_ignores_selection_witness :
  get_audio Qplus exact_div read_two dataset_two_sources 0 (Some [0%Z])
    = Ok ([(q 1 + q 3) / 2; (q 2 + q 2) / 2; (q 3 + q 0) / 2]%Q, 22050%Z).
Proof.
  apply (get_audio_ignores_selection Qplus exact_div read_two dataset_two_sources 0%Z
           [q 1; q 2; q 3] [q 3; q 2; q 0] 22050%Z [0%Z]); reflexivity.
Defined.
